(** * pdtable.table_origin: location identity, provenance trees, issue tracking

    A shallow embedding of [pdtable/table_origin.py].  Python objects become
    records, [Optional] fields become [option], raising code returns in the
    [result] type below, generators are described by the trace they produce,
    and the one mutable cache of the module (the stat result of a
    [FilesystemLocationFile]) is threaded explicitly, with the file system
    as it is at the time of each call. *)

From stdpp Require Import gmap strings list pretty.
From Stdlib Require Import Ascii ZArith Lia.

Local Open Scope string_scope.
Local Open Scope list_scope.

(** ** Python-level preliminaries *)

Module Py.

(** The built-in exceptions this module raises or lets escape. *)
Inductive exn :=
  | ValueError (msg : string)
  | AttributeError (msg : string)
  | NotImplementedError (msg : string)
  | OSError (msg : string).

(** A computation that either raises or returns. *)
Inductive result (A : Type) :=
  | Raise (e : exn)
  | Return (a : A).
Arguments Raise {A} e.
Arguments Return {A} a.

Definition bind {A B} (m : result A) (k : A -> result B) : result B :=
  match m with
  | Raise e => Raise e
  | Return a => k a
  end.

Definition returns {A} (m : result A) : bool :=
  match m with Return _ => true | Raise _ => false end.

Definition quote_char : ascii := "034"%char.
Definition newline_char : ascii := "010"%char.
Definition nl : string := String newline_char EmptyString.
Definition dq : string := String quote_char EmptyString.

(** [sep.join(xs)] *)
Fixpoint join (sep : string) (xs : list string) : string :=
  match xs with
  | [] => EmptyString
  | [x] => x
  | x :: rest => x +:+ sep +:+ join sep rest
  end.

(** [s * n] for a string [s] *)
Fixpoint repeat_str (s : string) (n : nat) : string :=
  match n with
  | O => EmptyString
  | S n' => s +:+ repeat_str s n'
  end.

(** [str(i)] / [f"{i}"] for an [int]. *)
Definition str_int (i : Z) : string := pretty i.

(** [f"{x}"] for an [Optional[str]]: [None] prints as the word None. *)
Definition fmt_opt_str (o : option string) : string :=
  match o with
  | None => "None"
  | Some s => s
  end.

(** ["%0<w>d" % n] for a non-negative [n]: decimal digits, left-padded
    with zeros up to width [w]. *)
Definition zfill (w : nat) (s : string) : string :=
  repeat_str "0" (w - String.length s) +:+ s.

Definition fmt0 (w : nat) (n : N) : string := zfill w (pretty n).

(** The character of a decimal digit. *)
Definition digit (k : N) : ascii := ascii_of_N (48 + k).

(** What a computation over a changed object returned, without the
    object. *)
Definition value_of {A B} (m : result (A * B)) : result A :=
  match m with
  | Raise e => Raise e
  | Return r => Return r.1
  end.

(** [s.replace(c, r)] for a one-character pattern [c]. *)
Fixpoint replace_char (c : ascii) (r : string) (s : string) : string :=
  match s with
  | EmptyString => EmptyString
  | String a s' =>
      if Ascii.eqb a c then r +:+ replace_char c r s'
      else String a (replace_char c r s')
  end.

(** [html.escape(s)] with its default [quote=True]: five successive
    replacements, the ampersand first. *)
Definition html_escape (s : string) : string :=
  let s := replace_char "&" "&amp;" s in
  let s := replace_char "<" "&lt;" s in
  let s := replace_char ">" "&gt;" s in
  let s := replace_char quote_char "&quot;" s in
  let s := replace_char "'" "&#x27;" s in
  s.

(** [[f(x) for x in xs]], stopping at the first exception. *)
Definition result_map {A B} (f : A -> result B) : list A -> result (list B) :=
  fix go (xs : list A) : result (list B) :=
    match xs with
    | [] => Return []
    | x :: rest =>
        match f x with
        | Raise e => Raise e
        | Return y =>
            match go rest with
            | Raise e => Raise e
            | Return ys => Return (y :: ys)
            end
        end
    end.

(** [for x in xs: body(x)] over a state [S], stopping at the first
    exception. *)
Definition for_each {A S} (body : A -> S -> result S) : list A -> S -> result S :=
  fix go (xs : list A) (s : S) : result S :=
    match xs with
    | [] => Return s
    | x :: rest =>
        match body x s with
        | Raise e => Raise e
        | Return s' => go rest s'
        end
    end.

(** *** Generators

    A generator function is described by the trace a consumer sees when it
    runs the generator to its end: the values yielded, in order, and the
    exception that ended it, if one did. *)
Record trace (A : Type) := mkTrace {
  yielded : list A;
  raised : option exn
}.
Arguments mkTrace {A} _ _.
Arguments yielded {A} _.
Arguments raised {A} _.

Definition gen_return {A} : trace A := mkTrace [] None.
Definition gen_yield {A} (a : A) : trace A := mkTrace [a] None.
Definition gen_raise {A} (e : exn) : trace A := mkTrace [] (Some e).

(** Running [g] and then [k]: [k] runs only if [g] ended without raising.
    This is both sequencing of statements and [yield from g] followed by
    [k]. *)
Definition gen_then {A} (g k : trace A) : trace A :=
  match raised g with
  | Some _ => g
  | None => mkTrace (yielded g ++ yielded k)%list (raised k)
  end.

(** [for x in xs: yield from f(x)] *)
Definition gen_for {A B} (f : A -> trace B) (xs : list A) : trace B :=
  foldr (fun x k => gen_then (f x) k) gen_return xs.

(** A generator object is a cursor into its trace: what it still has to
    yield and how it will end.  [gen_next] is [next(g)]. *)
Inductive next_result (A : Type) :=
  | Yields (a : A)
  | StopIteration
  | Raises (e : exn).
Arguments Yields {A} a.
Arguments StopIteration {A}.
Arguments Raises {A} e.

Definition gen_next {A} (g : trace A) : next_result A * trace A :=
  match yielded g with
  | a :: rest => (Yields a, mkTrace rest (raised g))
  | [] =>
      match raised g with
      | Some e => (Raises e, gen_return)
      | None => (StopIteration, gen_return)
      end
  end.

End Py.

Import Py.

Notation "'let*' x ':=' m 'in' k" := (Py.bind m (fun x => k))
  (at level 10, x name, m at level 100, k at level 200).

(** ** [datetime.datetime] *)

(** A naive [datetime] value, by its fields. *)
Record datetime := mkDatetime {
  year : N; month : N; day : N;
  hour : N; minute : N; second : N;
  microsecond : N
}.

(** The ranges the [datetime] constructor enforces. *)
Definition datetime_valid (d : datetime) : Prop :=
  (1 <= year d <= 9999 /\ 1 <= month d <= 12 /\ 1 <= day d <= 31 /\
   hour d < 24 /\ minute d < 60 /\ second d < 60 /\ microsecond d < 1000000)%N.

(** [d.isoformat(timespec="seconds")] of a naive [datetime]. *)
Definition isoformat_seconds (d : datetime) : string :=
  fmt0 4 (year d) +:+ "-" +:+ fmt0 2 (month d) +:+ "-" +:+ fmt0 2 (day d)
  +:+ "T" +:+ fmt0 2 (hour d) +:+ ":" +:+ fmt0 2 (minute d) +:+ ":"
  +:+ fmt0 2 (second d).

(** [d.replace(microsecond=0)]: the part of [d] that [isoformat_seconds]
    prints. *)
Definition whole_seconds (d : datetime) : datetime :=
  mkDatetime (year d) (month d) (day d) (hour d) (minute d) (second d) 0.

(** ** The platform: [pathlib], [os.stat] and the local time zone *)

(** What the module asks of the standard library and the operating system.
    [path_absolute] is taken at the current working directory, [path_stat]
    reads the modification time off the file system ([Path.stat().st_mtime]),
    and [fromtimestamp] is [datetime.datetime.fromtimestamp] in the local
    time zone, which raises for a time stamp outside the years a [datetime]
    can hold. *)
Class Platform := {
  Path : Type;
  Timestamp : Type;
  path_str : Path -> string;
  path_absolute : Path -> Path;
  path_parent : Path -> Path;
  path_as_uri : Path -> result string;
  path_relative_to : Path -> Path -> result Path;
  path_stat : Path -> result Timestamp;
  fromtimestamp : Timestamp -> result datetime
}.

(** ** Load requests *)

(** A [LoadItem] and the [LoadLocation] it came from; a load location is any
    object with the protocol's properties and is kept by their values. *)
Inductive LoadItem :=
  | mkLoadItem (specification : string) (source : option LoadLocation)
with LoadLocation :=
  | mkLoadLocation (ll_load_identifier : string)
                   (ll_interactive_identifier : string)
                   (ll_load_specification : LoadItem).

Definition specification (li : LoadItem) : string :=
  match li with mkLoadItem s _ => s end.
Definition source (li : LoadItem) : option LoadLocation :=
  match li with mkLoadItem _ s => s end.

Definition source_identifier (li : LoadItem) : string :=
  match source li with
  | None => "<root>"
  | Some (mkLoadLocation i _ _) => i
  end.

Section Locations.
Context `{P : Platform}.

(** *** [NullLocationFile] *)

Record NullLocationFile := mkNullLocationFile {
  _spec : LoadItem;
  _load_identifier : string
}.

(** [NullLocationFile.__init__]; [random_id] is what [_random_id()] returns
    when it is called. *)
Definition NullLocationFile_init (random_id : string)
    (description id : option string) : NullLocationFile :=
  let description := match description with None => "Unknown" | Some d => d end in
  let id := match id with
            | None => description +:+ "-" +:+ random_id
            | Some i => i
            end in
  mkNullLocationFile (mkLoadItem description None) id.

(** *** [FilesystemLocationFile] *)

Record stat_result := mkStat { st_mtime : Timestamp }.

Record FilesystemLocationFile := mkFilesystemLocationFile {
  _local_path : Path;
  _load_specification : LoadItem;
  _stat_result : option stat_result;
  root_folder : option Path
}.

Definition FilesystemLocationFile_init (local_path : Path)
    (load_specification : option LoadItem) (root_folder : option Path)
    (stat_result : option stat_result) : FilesystemLocationFile :=
  mkFilesystemLocationFile local_path
    (match load_specification with
     | Some li => li
     | None => mkLoadItem (path_str local_path) None
     end)
    stat_result root_folder.

(** The file system is read at the time of a call.  The definitions
    ending in [_at] take what the file system answers to [Path.stat()] at
    that time; the ones without read what the platform answers.  When a
    call raises, the object it was made on is not described any further. *)

(** [get_stat_result]: stats the path unless a result is cached and wanted;
    the file comes back with the cache filled. *)
Definition get_stat_result_at (stat : Path -> result Timestamp) (cached : bool)
    (f : FilesystemLocationFile)
  : result (stat_result * FilesystemLocationFile) :=
  match cached, _stat_result f with
  | true, Some st => Return (st, f)
  | _, _ =>
      let* t := stat (_local_path f) in
      let st := mkStat t in
      Return (st, mkFilesystemLocationFile (_local_path f)
                    (_load_specification f) (Some st) (root_folder f))
  end.

Definition get_mtime_at (stat : Path -> result Timestamp)
    (f : FilesystemLocationFile)
  : result (datetime * FilesystemLocationFile) :=
  let* r := get_stat_result_at stat true f in
  let* mtime := fromtimestamp (st_mtime r.1) in
  Return (mtime, r.2).

(** [FilesystemLocationFile.load_identifier].  A [datetime] is always true
    in a condition, so the [if mtime:] of the source takes its first
    branch. *)
Definition FilesystemLocationFile_load_identifier_at
    (stat : Path -> result Timestamp) (f : FilesystemLocationFile)
  : result (string * FilesystemLocationFile) :=
  let name_part := path_str (path_absolute (_local_path f)) in
  let* r := get_mtime_at stat f in
  let mtime := r.1 in
  Return (name_part +:+ "@" +:+ isoformat_seconds mtime, r.2).

Definition get_stat_result (cached : bool) (f : FilesystemLocationFile)
  : result (stat_result * FilesystemLocationFile) :=
  get_stat_result_at path_stat cached f.

Definition get_mtime (f : FilesystemLocationFile)
  : result (datetime * FilesystemLocationFile) :=
  get_mtime_at path_stat f.

Definition FilesystemLocationFile_load_identifier (f : FilesystemLocationFile)
  : result (string * FilesystemLocationFile) :=
  FilesystemLocationFile_load_identifier_at path_stat f.

(** The [interactive_identifier] property of [FilesystemLocationFile]. *)
Definition FilesystemLocationFile_interactive_identifier (f : FilesystemLocationFile) : result string :=
  match root_folder f with
  | None => Return (path_str (_local_path f))
  | Some r =>
      let* rel := path_relative_to (_local_path f) r in
      Return (path_str rel)
  end.

(** [f"{row}"] for an [Optional[int]]. *)
Definition fmt_opt_int (row : option Z) : string :=
  match row with
  | None => "None"
  | Some r => str_int r
  end.

Definition FilesystemLocationFile_get_interactive_identifier (f : FilesystemLocationFile)
    (sheet : option string) (row : option Z) : result string :=
  let loc := match sheet with
             | None => "Row " +:+ fmt_opt_int row
             | Some s => "'" +:+ s +:+ "'!A" +:+ fmt_opt_int row
             end in
  let* ident := FilesystemLocationFile_interactive_identifier f in
  Return (loc +:+ " of '" +:+ ident +:+ "'").

Definition FilesystemLocationFile_interactive_uri (f : FilesystemLocationFile)
    (sheet : option string) (row : option Z) (read_only : bool) : result string :=
  let* file_uri := path_as_uri (_local_path f) in
  match sheet, row with
  | None, None => Return file_uri
  | _, _ =>
      let sheet := match sheet with None => "Sheet1" | Some s => s end in
      let row_mark := match row with
                      | Some r => "!A" +:+ str_int r
                      | None => EmptyString
                      end in
      Return (file_uri +:+ "#'" +:+ sheet +:+ "'" +:+ row_mark)
  end.

(** *** The [LocationFile] protocol, over its two implementations *)

Inductive LocationFile :=
  | NullFile (f : NullLocationFile)
  | FilesystemFile (f : FilesystemLocationFile).

Definition LocationFile_load_specification (lf : LocationFile) : LoadItem :=
  match lf with
  | NullFile f => _spec f
  | FilesystemFile f => _load_specification f
  end.

(** The [load_identifier] property; the file comes back because the
    filesystem variant may have filled its stat cache. *)
Definition LocationFile_load_identifier_at (stat : Path -> result Timestamp)
    (lf : LocationFile) : result (string * LocationFile) :=
  match lf with
  | NullFile f => Return (_load_identifier f, lf)
  | FilesystemFile f =>
      let* r := FilesystemLocationFile_load_identifier_at stat f in
      Return (r.1, FilesystemFile r.2)
  end.

Definition LocationFile_load_identifier (lf : LocationFile)
  : result (string * LocationFile) :=
  LocationFile_load_identifier_at path_stat lf.

Definition LocationFile_local_path (lf : LocationFile) : option Path :=
  match lf with
  | NullFile _ => None
  | FilesystemFile f => Some (_local_path f)
  end.

Definition LocationFile_local_folder_path (lf : LocationFile) : option Path :=
  match LocationFile_local_path lf with
  | None => None
  | Some p => Some (path_parent p)
  end.

Definition get_local_path (lf : LocationFile) : result Path :=
  match LocationFile_local_path lf with
  | Some p => Return p
  | None => Raise (NotImplementedError "Automatic download not implemented")
  end.

(** [get_interactive_identifier]: the protocol's default for the null
    variant, the override for the filesystem variant. *)
Definition LocationFile_get_interactive_identifier (lf : LocationFile)
    (sheet : option string) (row : option Z) : result string :=
  match lf with
  | NullFile f =>
      let s_loc := match sheet with
                   | None => EmptyString
                   | Some s => " Sheet '" +:+ s +:+ "'"
                   end in
      let r_loc := match row with
                   | None => EmptyString
                   | Some r => " Row " +:+ str_int r
                   end in
      Return (_load_identifier f +:+ s_loc +:+ r_loc)
  | FilesystemFile f => FilesystemLocationFile_get_interactive_identifier f sheet row
  end.

Definition LocationFile_interactive_identifier (lf : LocationFile) : result string :=
  match lf with
  | NullFile _ => LocationFile_get_interactive_identifier lf None None
  | FilesystemFile f => FilesystemLocationFile_interactive_identifier f
  end.

Definition NullLocationFile_interactive_uri (f : NullLocationFile)
    (sheet : option string) (row : option Z) (read_only : bool) : option string :=
  None.

Definition LocationFile_interactive_uri (lf : LocationFile)
    (sheet : option string) (row : option Z) (read_only : bool)
  : result (option string) :=
  match lf with
  | NullFile f => Return (NullLocationFile_interactive_uri f sheet row read_only)
  | FilesystemFile f =>
      let* u := FilesystemLocationFile_interactive_uri f sheet row read_only in
      Return (Some u)
  end.

(** *** Sheets and blocks *)

Record LocationSheet := mkLocationSheet {
  file : LocationFile;
  sheet_name : option string;
  sheet_metadata : gmap string string
}.

Definition make_location_sheet (lf : LocationFile) (sheet_name : option string)
  : LocationSheet :=
  mkLocationSheet lf sheet_name ∅.

Record LocationBlock := mkLocationBlock {
  sheet : LocationSheet;
  row : Z
}.

Definition make_location_block (s : LocationSheet) (row : Z) : LocationBlock :=
  mkLocationBlock s row.

Definition LocationBlock_file (b : LocationBlock) : LocationFile := file (sheet b).
Definition LocationBlock_sheet_name (b : LocationBlock) : option string :=
  sheet_name (sheet b).

(** [x or 'Sheet1'] for an [Optional[str]]: [None] and the empty string are
    both false in a condition. *)
Definition or_Sheet1 (name : option string) : string :=
  match name with
  | None => "Sheet1"
  | Some EmptyString => "Sheet1"
  | Some s => s
  end.

(** [LocationBlock.load_identifier]; the block comes back holding the file
    as [load_identifier] left it. *)
Definition LocationBlock_load_identifier_at (stat : Path -> result Timestamp)
    (b : LocationBlock) : result (string * LocationBlock) :=
  let* r := LocationFile_load_identifier_at stat (LocationBlock_file b) in
  Return (r.1 +:+ "#'" +:+ or_Sheet1 (LocationBlock_sheet_name b) +:+ "'!A"
              +:+ str_int (row b),
          mkLocationBlock
            (mkLocationSheet r.2 (sheet_name (sheet b)) (sheet_metadata (sheet b)))
            (row b)).

Definition LocationBlock_load_identifier (b : LocationBlock)
  : result (string * LocationBlock) :=
  LocationBlock_load_identifier_at path_stat b.

Definition LocationBlock_interactive_identifier (b : LocationBlock) : result string :=
  LocationFile_get_interactive_identifier (LocationBlock_file b)
    (LocationBlock_sheet_name b) (Some (row b)).

Definition LocationBlock_interactive_uri (b : LocationBlock) (read_only : bool)
  : result (option string) :=
  LocationFile_interactive_uri (LocationBlock_file b)
    (LocationBlock_sheet_name b) (Some (row b)) read_only.

(** ** Provenance trees *)

(** A [TableOrigin] node: three fields, each with the default of the
    dataclass. [parents] is kept as the tuple of nodes it iterates over. *)
Local Unset Elimination Schemes.
Inductive TableOrigin :=
  | mkTableOrigin (input_location : option LocationBlock)
                  (parents : list TableOrigin)
                  (operation : option string).
Local Set Elimination Schemes.

Definition input_location (tt : TableOrigin) : option LocationBlock :=
  match tt with mkTableOrigin il _ _ => il end.
Definition parents (tt : TableOrigin) : list TableOrigin :=
  match tt with mkTableOrigin _ ps _ => ps end.
Definition operation (tt : TableOrigin) : option string :=
  match tt with mkTableOrigin _ _ op => op end.

(** Truth value of a tuple in a condition, and [x is None]. *)
Definition nonempty {A} (l : list A) : bool :=
  match l with [] => false | _ :: _ => true end.
Definition is_None {A} (o : option A) : bool :=
  match o with None => true | Some _ => false end.

(** The check written in the class body under the name [_post_init_]. *)
Definition _post_init_ (self : TableOrigin) : result unit :=
  if is_None (operation self) then
    (* leaf *)
    if nonempty (parents self) || is_None (input_location self)
    then Raise (ValueError
                  "For TableOrigin leaf node, only input_location must be defined")
    else Return ()
  else
    (* branch *)
    if negb (is_None (input_location self)) || negb (nonempty (parents self))
    then Raise (ValueError
                  "For TableOrigin branch node, only operation and parents should be defined")
    else Return ().

(** The [__init__] that [@dataclass(frozen=True)] generates: it stores the
    three fields and then calls [__post_init__] when the class defines a
    method of that name.  [TableOrigin] defines none ([_post_init_] is
    another name), so nothing runs after the fields are stored. *)
Definition TableOrigin_init (input_location : option LocationBlock)
    (parents : list TableOrigin) (operation : option string)
  : result TableOrigin :=
  Return (mkTableOrigin input_location parents operation).

Definition is_leaf (self : TableOrigin) : bool := is_None (operation self).

(** [get_input_ancestors], by the trace of the generator it returns. *)
Fixpoint get_input_ancestors (self : TableOrigin) : trace LocationBlock :=
  match self with
  | mkTableOrigin input_location parents operation =>
      if is_None operation then
        match input_location with
        | Some loc => gen_yield loc
        | None => gen_raise (ValueError "Inconsistent state of TableOrigin")
        end
      else gen_for get_input_ancestors parents
  end.

(** *** Generator objects in a store

    Each call of a generator function makes a new generator object.  The
    store maps object identities to cursors. *)
Definition gen_store := gmap nat (trace LocationBlock).

(** Calling [self.get_input_ancestors()]: a new object, nothing run yet. *)
Definition call_get_input_ancestors (self : TableOrigin) (h : gen_store)
  : nat * gen_store :=
  let g := fresh (dom h) in
  (g, <[g := get_input_ancestors self]> h).

(** [next(g)] on the object [g] of the store. *)
Definition store_next (g : nat) (h : gen_store)
  : option (next_result LocationBlock * gen_store) :=
  match h !! g with
  | None => None
  | Some c => let r := gen_next c in Some (r.1, <[g := r.2]> h)
  end.

(** A [for] loop over the object [g], running it to its end: what the loop
    body received and how the loop ended.  [fuel] bounds the number of
    [next] calls. *)
Fixpoint consume (fuel : nat) (g : nat) (h : gen_store)
  : option (trace LocationBlock * gen_store) :=
  match fuel with
  | O => None
  | S fuel' =>
      match store_next g h with
      | None => None
      | Some (StopIteration, h') => Some (gen_return, h')
      | Some (Raises e, h') => Some (gen_raise e, h')
      | Some (Yields a, h') =>
          match consume fuel' g h' with
          | None => None
          | Some (t, h'') => Some (mkTrace (a :: yielded t) (raised t), h'')
          end
      end
  end.

(** *** Rendering *)

(** [visit_leaf] of [table_origin_as_html]: the URI goes into the [href]
    as [interactive_uri] returned it ([None] prints as the word None), the
    identifier goes through [html.escape]. *)
Definition visit_leaf_html (self : TableOrigin) (loc : LocationBlock) : result string :=
  let* uri := LocationBlock_interactive_uri loc false in
  let* ident := LocationBlock_interactive_identifier loc in
  Return ("<a href=" +:+ dq +:+ fmt_opt_str uri +:+ dq +:+ " class=" +:+ dq
          +:+ "input-table-origin" +:+ dq +:+ ">" +:+ html_escape ident +:+ "</a>").

(** [html.escape(tt.operation)]; on [None] the call of [.replace] fails. *)
Definition escape_operation (operation : option string) : result string :=
  match operation with
  | Some op => Return (html_escape op)
  | None => Raise (AttributeError "'NoneType' object has no attribute 'replace'")
  end.

Fixpoint visit_html (self : TableOrigin) : result string :=
  match self with
  | mkTableOrigin input_location parents operation =>
      match input_location with
      | None =>
          (* visit_branch *)
          let* op := escape_operation operation in
          let* items := result_map
                          (fun p => let* r := visit_html p in
                                    Return ("<li>" +:+ r +:+ "</li>"))
                          parents in
          Return ("<div class=" +:+ dq +:+ "derived-table-origin" +:+ dq
                  +:+ "><span>" +:+ op +:+ "</span><ul>"
                  +:+ join nl items +:+ "</ul></div>")
      | Some loc => visit_leaf_html self loc
      end
  end.

Definition table_origin_as_html (self : TableOrigin) : result string :=
  visit_html self.

(** [visit] of [table_origin_as_str]; [buf] is the list the closure
    appends to. *)
Fixpoint visit_str (self : TableOrigin) (lev : nat) (buf : list (nat * string))
  : result (list (nat * string)) :=
  match self with
  | mkTableOrigin input_location parents operation =>
      match input_location with
      | None =>
          (* visit_branch *)
          let buf := (buf ++ [(lev, "Derived via " +:+ fmt_opt_str operation
                                      +:+ " from:")])%list in
          for_each (fun p buf => visit_str p (lev + 1) buf) parents buf
      | Some loc =>
          (* visit_leaf *)
          let* ident := LocationBlock_interactive_identifier loc in
          Return (buf ++ [(lev, ident)])%list
      end
  end.

Definition render_entry (e : nat * string) : string :=
  repeat_str "  " e.1 +:+ e.2.

Definition table_origin_as_str (self : TableOrigin) : result string :=
  let* buf := visit_str self 0 [] in
  Return (join nl (map render_entry buf)).

(** ** Issue tracking *)

(** [logging.ERROR] and [logging.WARNING] *)
Definition ERROR : Z := 40.
Definition WARNING : Z := 30.

(** [Union[str, Exception]] *)
Inductive issue_text :=
  | IssueStr (s : string)
  | IssueExc (e : exn).

Record InputIssue := mkInputIssue {
  issue : issue_text;
  load_item : option LoadItem;
  location_file : option LocationFile;
  origin : option TableOrigin;
  severity : Z
}.

(** What a call of a tracker method does: it raises [InputError] or it
    returns, leaving the tracker in a state. *)
Inductive tracked (T : Type) :=
  | InputError (arg : InputIssue)
  | Tracked (self : T).
Arguments InputError {T} arg.
Arguments Tracked {T} self.

(** The abstract members of [InputIssueTracker], and [is_ok], which a
    subclass may override. *)
Class InputIssueTracker (T : Type) := {
  add_issue : T -> InputIssue -> tracked T;
  issues : T -> list InputIssue;
  is_ok : T -> bool
}.

(** [InputIssueTracker.is_ok] as the base class computes it. *)
Definition InputIssueTracker_is_ok {T} (issues : T -> list InputIssue) (self : T) : bool :=
  negb (existsb (fun m => (ERROR <=? severity m)%Z) (issues self)).

Definition add_error {T} `{InputIssueTracker T} (self : T) (issue : issue_text)
    (load_item : option LoadItem) (location_file : option LocationFile)
    (origin : option TableOrigin) : tracked T :=
  add_issue self (mkInputIssue issue load_item location_file origin ERROR).

Definition add_warning {T} `{InputIssueTracker T} (self : T) (issue : issue_text)
    (load_item : option LoadItem) (location_file : option LocationFile)
    (origin : option TableOrigin) : tracked T :=
  add_issue self (mkInputIssue issue load_item location_file origin WARNING).

(** [NullInputIssueTracker] has no fields. *)
Inductive NullInputIssueTracker : Set := mkNullInputIssueTracker.

#[export] Instance NullInputIssueTracker_tracker : InputIssueTracker NullInputIssueTracker := {
  add_issue _ issue := InputError issue;
  issues _ := [];
  is_ok _ := true
}.

(** The legal states: a node with a location and nothing else, or a node
    with an operation, at least one parent and no location. *)
Definition has_location (self : TableOrigin) : bool :=
  negb (is_None (input_location self)).
Definition has_operation_and_parents (self : TableOrigin) : bool :=
  negb (is_None (operation self)) && nonempty (parents self).
Definition exactly_one_of (a b : bool) : bool := xorb a b.

(** A node that passes the check of [_post_init_], and so does every node
    below it. *)
Fixpoint valid (self : TableOrigin) : bool :=
  match self with
  | mkTableOrigin il ps op =>
      returns (_post_init_ (mkTableOrigin il ps op)) && forallb valid ps
  end.

(** The lines of the text rendering, each already indented. *)
Definition rendered_lines (self : TableOrigin) : result (list string) :=
  let* buf := visit_str self 0 [] in
  Return (map render_entry buf).

(** An entry of the buffer of [table_origin_as_str], one level deeper. *)
Definition deeper (e : nat * string) : nat * string := (S e.1, e.2).

(** One more level of indentation on a line. *)
Definition indent (line : string) : string := "  " +:+ line.

(** The modification time a filesystem file answers with: the cached stat
    result when there is one, else what the file system reports. *)
Definition recorded_mtime (f : FilesystemLocationFile) : result Timestamp :=
  match _stat_result f with
  | Some st => Return (st_mtime st)
  | None => path_stat (_local_path f)
  end.

(** A caller that reports issues one after the other and carries on after
    each [InputError]. *)
Fixpoint attempt_all {T} `{InputIssueTracker T} (self : T) (reported : list InputIssue) : T :=
  match reported with
  | [] => self
  | i :: rest =>
      match add_issue self i with
      | InputError _ => attempt_all self rest
      | Tracked self' => attempt_all self' rest
      end
  end.

End Locations.

Arguments InputError {P T} arg.
Arguments Tracked {P T} self.

(** ** A concrete platform

    A POSIX machine whose local time zone is UTC: pure POSIX paths, a file
    system given as a table of modification times, and time stamps in
    whole microseconds since the epoch.  The examples below run on it. *)
Module Posix.

Record PosixPath := mkPath {
  is_absolute : bool;
  parts : list string
}.

Definition path (absolute : bool) (parts : list string) : PosixPath :=
  mkPath absolute parts.

(** [str(p)] *)
Definition to_str (p : PosixPath) : string :=
  match parts p with
  | [] => if is_absolute p then "/" else "."
  | _ => (if is_absolute p then "/" else EmptyString) +:+ join "/" (parts p)
  end.

(** [p.absolute()] with the working directory [cwd] *)
Definition absolute (cwd : list string) (p : PosixPath) : PosixPath :=
  if is_absolute p then p else mkPath true (cwd ++ parts p).

(** [p.parent] *)
Definition parent (p : PosixPath) : PosixPath :=
  mkPath (is_absolute p) (removelast (parts p)).

Definition hex_digit (n : N) : ascii :=
  if (n <? 10)%N then ascii_of_N (48 + n) else ascii_of_N (55 + n).

(** [urllib.parse.quote_from_bytes] with its default safe set. *)
Definition unreserved (c : ascii) : bool :=
  let n := N_of_ascii c in
  ((65 <=? n) && (n <=? 90) || (97 <=? n) && (n <=? 122)
   || (48 <=? n) && (n <=? 57))%N
  || Ascii.eqb c "_" || Ascii.eqb c "." || Ascii.eqb c "-" || Ascii.eqb c "~"
  || Ascii.eqb c "/".

Fixpoint quote_from_bytes (s : string) : string :=
  match s with
  | EmptyString => EmptyString
  | String c s' =>
      if unreserved c then String c (quote_from_bytes s')
      else String "%" (String (hex_digit (N_of_ascii c / 16))
                         (String (hex_digit (N_of_ascii c mod 16))
                            (quote_from_bytes s')))
  end.

(** [p.as_uri()] *)
Definition as_uri (p : PosixPath) : result string :=
  if is_absolute p then Return ("file://" +:+ quote_from_bytes (to_str p))
  else Raise (ValueError "relative path can't be expressed as a file URI").

Fixpoint strip_prefix (pre l : list string) : option (list string) :=
  match pre, l with
  | [], _ => Some l
  | x :: pre', y :: l' => if String.eqb x y then strip_prefix pre' l' else None
  | _ :: _, [] => None
  end.

Fixpoint contains (c : ascii) (s : string) : bool :=
  match s with
  | EmptyString => false
  | String a s' => Ascii.eqb a c || contains c s'
  end.

Definition lower_hex_digit (n : N) : ascii :=
  if (n <? 10)%N then ascii_of_N (48 + n) else ascii_of_N (87 + n).

(** One character inside [repr(s)], the string being quoted with [q]. *)
Definition repr_char (q c : ascii) : string :=
  let n := N_of_ascii c in
  if Ascii.eqb c "\" then "\\"
  else if Ascii.eqb c q then String "\" (String q EmptyString)
  else if Ascii.eqb c newline_char then "\n"
  else if Ascii.eqb c "013" then "\r"
  else if Ascii.eqb c "009" then "\t"
  else if ((n <? 32) || (n =? 127))%N then
    "\x" +:+ String (lower_hex_digit (n / 16))
               (String (lower_hex_digit (n mod 16)) EmptyString)
  else String c EmptyString.

Fixpoint repr_body (q : ascii) (s : string) : string :=
  match s with
  | EmptyString => EmptyString
  | String c s' => repr_char q c +:+ repr_body q s'
  end.

(** [repr(s)] of a [str] whose characters outside ASCII are printable:
    single quotes, unless the string has a single quote and no double
    quote. *)
Definition py_repr (s : string) : string :=
  let q := if contains "'" s && negb (contains quote_char s)
           then quote_char else "'"%char in
  String q (repr_body q s) +:+ String q EmptyString.

(** The [ValueError] of [relative_to], with the text of Python 3.9 to
    3.11. *)
Definition not_in_subpath (p other : PosixPath) : exn :=
  ValueError (py_repr (to_str p) +:+ " is not in the subpath of "
              +:+ py_repr (to_str other)
              +:+ " OR one path is relative and the other is absolute.").

(** [p.relative_to(other)] *)
Definition relative_to (p other : PosixPath) : result PosixPath :=
  if Bool.eqb (is_absolute p) (is_absolute other) then
    match strip_prefix (parts other) (parts p) with
    | Some rest => Return (mkPath false rest)
    | None => Raise (not_in_subpath p other)
    end
  else Raise (not_in_subpath p other).

(** Days since 1970-01-01 to a proleptic Gregorian date. *)
Definition civil_from_days (days : Z) : Z * N * N :=
  let z := (days + 719468)%Z in
  let era := (z / 146097)%Z in
  let doe := (z - era * 146097)%Z in
  let yoe := ((doe - doe / 1460 + doe / 36524 - doe / 146096) / 365)%Z in
  let doy := (doe - (365 * yoe + yoe / 4 - yoe / 100))%Z in
  let mp := ((5 * doy + 2) / 153)%Z in
  let d := (doy - (153 * mp + 2) / 5 + 1)%Z in
  let m := (if mp <? 10 then mp + 3 else mp - 9)%Z in
  let y := (yoe + era * 400 + (if m <=? 2 then 1 else 0))%Z in
  (y, Z.to_N m, Z.to_N d).

(** [datetime.fromtimestamp] in UTC, the time stamp in microseconds: a
    [ValueError] outside the years 1 to 9999. *)
Definition utc_fromtimestamp (us : Z) : result datetime :=
  let secs := (us / 1000000)%Z in
  let '(y, m, d) := civil_from_days (secs / 86400) in
  let sod := (secs mod 86400)%Z in
  if ((1 <=? y) && (y <=? 9999))%Z then
    Return (mkDatetime (Z.to_N y) m d (Z.to_N (sod / 3600))
              (Z.to_N (sod mod 3600 / 60)) (Z.to_N (sod mod 60))
              (Z.to_N (us mod 1000000)))
  else Raise (ValueError ("year " +:+ pretty y +:+ " is out of range")).

(** A file system without symbolic links: a tree of directories and files,
    each with its modification time in microseconds. *)
#[local] Unset Elimination Schemes.
Inductive entry :=
  | File (mtime : Z)
  | Dir (mtime : Z) (children : list (string * entry)).
#[local] Set Elimination Schemes.

Record filesystem := mkFilesystem {
  root_mtime : Z;
  root_children : list (string * entry)
}.

Definition child (name : string) (children : list (string * entry))
  : option entry :=
  match List.find (fun e => String.eqb e.1 name) children with
  | Some e => Some e.2
  | None => None
  end.

Inductive lookup_result :=
  | Found (mtime : Z)
  | NoSuchFile
  | NotADirectory.

(** Path resolution from the directory [here], the directories above it in
    [above], the nearest first. *)
Fixpoint walk (above : list (Z * list (string * entry)))
    (here : Z * list (string * entry)) (names : list string) : lookup_result :=
  match names with
  | [] => Found here.1
  | name :: rest =>
      if String.eqb name ".." then
        match above with
        | [] => walk [] here rest
        | up :: above' => walk above' up rest
        end
      else
        match child name here.2 with
        | None => NoSuchFile
        | Some (File m) =>
            match rest with
            | [] => Found m
            | _ :: _ => NotADirectory
            end
        | Some (Dir m children) => walk (here :: above) (m, children) rest
        end
  end.

(** [p.stat().st_mtime]; [FileNotFoundError] and [NotADirectoryError] are
    kinds of [OSError] and print as below. *)
Definition stat (cwd : list string) (fs : filesystem) (p : PosixPath)
  : result Z :=
  match walk [] (root_mtime fs, root_children fs) (parts (absolute cwd p)) with
  | Found m => Return m
  | NoSuchFile =>
      Raise (OSError ("[Errno 2] No such file or directory: "
                      +:+ py_repr (to_str p)))
  | NotADirectory =>
      Raise (OSError ("[Errno 20] Not a directory: " +:+ py_repr (to_str p)))
  end.

Definition platform (cwd : list string) (fs : filesystem) : Platform := {|
  Path := PosixPath;
  Timestamp := Z;
  path_str := to_str;
  path_absolute := absolute cwd;
  path_parent := parent;
  path_as_uri := as_uri;
  path_relative_to := relative_to;
  path_stat := stat cwd fs;
  fromtimestamp := utc_fromtimestamp
|}.

End Posix.

(** ** Sample inputs on the concrete platform *)
Module Sample.

(** The disk: [/home], and [/data] with two files; [/data/input.csv] was
    last modified at 2023-01-01T00:00:00 UTC. *)
Definition disk : Posix.filesystem :=
  Posix.mkFilesystem 1600000000000000
    [("data", Posix.Dir 1700000000250000
                [("input.csv", Posix.File 1672531200000000);
                 ("other.csv", Posix.File 1700000000250000)]);
     ("home", Posix.Dir 1600000000000000 [])].

(** Working directory [/home]. *)
Definition machine : Platform := Posix.platform ["home"] disk.

Definition input_csv : @FilesystemLocationFile machine :=
  @FilesystemLocationFile_init machine
    (Posix.path true ["data"; "input.csv"]) None None None.

Definition other_csv : @FilesystemLocationFile machine :=
  @FilesystemLocationFile_init machine
    (Posix.path true ["data"; "other.csv"]) None None None.

(** Row 5 of the unnamed sheet of [/data/input.csv]. *)
Definition block_A : @LocationBlock machine :=
  make_location_block (make_location_sheet (FilesystemFile input_csv) None) 5.

(** Row 7 of the sheet [Results] of [/data/other.csv]. *)
Definition block_B : @LocationBlock machine :=
  make_location_block
    (make_location_sheet (FilesystemFile other_csv) (Some "Results")) 7.

Definition leaf_A : @TableOrigin machine := mkTableOrigin (Some block_A) [] None.
Definition leaf_B : @TableOrigin machine := mkTableOrigin (Some block_B) [] None.

Definition merged : @TableOrigin machine :=
  mkTableOrigin None [leaf_A; leaf_B] (Some "merge").

Definition joined : @TableOrigin machine :=
  mkTableOrigin None [merged; leaf_A] (Some "join").

(** [TableOrigin()] *)
Definition neither : @TableOrigin machine := mkTableOrigin None [] None.

(** [TableOrigin(input_location=block_A, parents=(leaf_B,), operation="merge")] *)
Definition both : @TableOrigin machine :=
  mkTableOrigin (Some block_A) [leaf_B] (Some "merge").

(** [/data/input.csv] with a stat result recorded at construction, the
    modification time being [t] microseconds after the epoch. *)
Definition input_csv_at (t : Z) : @FilesystemLocationFile machine :=
  @FilesystemLocationFile_init machine
    (Posix.path true ["data"; "input.csv"]) None None
    (Some (@mkStat machine t)).

(** Row 5 of a sheet of [/data/input.csv] whose declared name is the empty
    string. *)
Definition block_empty_name : @LocationBlock machine :=
  make_location_block
    (make_location_sheet (FilesystemFile input_csv) (Some EmptyString)) 5.

(** Row 5 of a sheet of [/data/input.csv] whose name has a double quote in
    it: a, double quote, b. *)
Definition block_quoted : @LocationBlock machine :=
  make_location_block
    (make_location_sheet (FilesystemFile input_csv)
       (Some ("a" +:+ dq +:+ "b"))) 5.

End Sample.

(** ** Further definitions: load history, tree measures, [utils] *)

(** [LoadItem.load_history]: the item itself, then the history of the
    request its source came from.  A source object is always true in a
    condition.  The generator raises nothing, so it is given by the list it
    yields. *)
Fixpoint load_history (self : LoadItem) : list LoadItem :=
  self ::
  match self with
  | mkLoadItem _ None => []
  | mkLoadItem _ (Some (mkLoadLocation _ _ load_specification)) =>
      load_history load_specification
  end.

(** One clause of [LoadItem.__str__]. *)
Definition included_as (li : LoadItem) : string :=
  "included as " +:+ dq +:+ specification li +:+ dq +:+ " from " +:+ dq
  +:+ match source li with
      | Some (mkLoadLocation _ interactive_identifier _) => interactive_identifier
      | None => "<root>"
      end
  +:+ dq.

(** [LoadItem.__str__] *)
Definition LoadItem_str (self : LoadItem) : string :=
  join ";" (map included_as (load_history self)).

(** The exception a computation ended with, if it did. *)
Definition raised_by {A} (m : result A) : option exn :=
  match m with
  | Raise e => Some e
  | Return _ => None
  end.

Section Measures.
Context `{P : Platform}.

(** The number of nodes of a tree. *)
Fixpoint node_count (self : TableOrigin) : nat :=
  match self with
  | mkTableOrigin _ ps _ => S (list_sum (map node_count ps))
  end.

(** Every node without an operation has a location, as far as the
    traversal of [get_input_ancestors] goes: below a node without an
    operation it does not look. *)
Fixpoint consistent (self : TableOrigin) : bool :=
  match self with
  | mkTableOrigin il ps op =>
      if is_None op then negb (is_None il) else forallb consistent ps
  end.

(** The link of one leaf in [table_origin_as_html]. *)
Definition leaf_link (loc : LocationBlock) : result string :=
  visit_leaf_html (mkTableOrigin (Some loc) [] None) loc.

(** A block of a null file. *)
Definition over_null_file (loc : LocationBlock) : bool :=
  match LocationBlock_file loc with
  | NullFile _ => true
  | FilesystemFile _ => false
  end.

End Measures.

(** *** [pdtable.utils.normalized_table_generator]

    [BlockType], with its member [TABLE], and
    [units.normalize_table_in_place] are defined elsewhere in the package
    and are taken as given; normalising changes the table it is given and
    may raise.  The input [ts] is any iterable, described by its trace. *)
Section Utils.
Context {BlockType Token UnitPolicy : Type} `{EqDecision BlockType}.
Variable TABLE : BlockType.
Variable normalize_table_in_place : UnitPolicy -> Token -> result Token.

(** The body of the loop for one item: the item to yield, or the exception
    of the normalisation. *)
Definition normalized_item (unit_policy : UnitPolicy)
    (item : BlockType * option Token) : result (BlockType * option Token) :=
  match item.2 with
  | Some token =>
      if bool_decide (item.1 = TABLE) then
        let* token' := normalize_table_in_place unit_policy token in
        Return (item.1, Some token')
      else Return item
  | None => Return item
  end.

Fixpoint normalized_items (unit_policy : UnitPolicy)
    (items : list (BlockType * option Token)) (ending : option exn)
  : trace (BlockType * option Token) :=
  match items with
  | [] => mkTrace [] ending
  | item :: rest =>
      match normalized_item unit_policy item with
      | Raise e => gen_raise e
      | Return item' =>
          gen_then (gen_yield item') (normalized_items unit_policy rest ending)
      end
  end.

Definition normalized_table_generator (unit_policy : UnitPolicy)
    (ts : trace (BlockType * option Token)) : trace (BlockType * option Token) :=
  normalized_items unit_policy (yielded ts) (raised ts).

End Utils.

Module MoreSamples.

(** A request for [input.csv] made from row 3 of [/data/all.csv], itself
    requested at the root. *)
Definition root_request : LoadItem := mkLoadItem "/data/all.csv" None.
Definition nested_request : LoadItem :=
  mkLoadItem "input.csv"
    (Some (mkLoadLocation "/data/all.csv@2023-01-01T00:00:00#'Sheet1'!A3"
             "Row 3 of '/data/all.csv'" root_request)).

(** The disk after everything on it was removed. *)
Definition wiped_disk : Posix.filesystem :=
  Posix.mkFilesystem 1704067200000000 [].

(** [/data/missing.csv] is not on disk. *)
Definition missing_csv : @FilesystemLocationFile Sample.machine :=
  @FilesystemLocationFile_init Sample.machine
    (Posix.path true ["data"; "missing.csv"]) None None None.

Definition block_missing : @LocationBlock Sample.machine :=
  make_location_block (make_location_sheet (FilesystemFile missing_csv) None) 2.

(** [/data/input.csv] shown relative to [/elsewhere], which it is not
    under. *)
Definition input_csv_elsewhere : @FilesystemLocationFile Sample.machine :=
  @FilesystemLocationFile_init Sample.machine
    (Posix.path true ["data"; "input.csv"]) None
    (Some (Posix.path true ["elsewhere"])) None.

Definition block_elsewhere : @LocationBlock Sample.machine :=
  make_location_block
    (make_location_sheet (FilesystemFile input_csv_elsewhere) None) 9.

(** A table built in memory. *)
Definition unknown_file : NullLocationFile :=
  NullLocationFile_init "MFRGGZDFMZTWQ2LK" None None.

Definition block_unknown : @LocationBlock Sample.machine :=
  make_location_block
    (make_location_sheet (NullFile unknown_file) (Some "tab")) 4.

Definition leaf_unknown : @TableOrigin Sample.machine :=
  mkTableOrigin (Some block_unknown) [] None.

Definition derived_unknown : @TableOrigin Sample.machine :=
  mkTableOrigin None [leaf_unknown; leaf_unknown] (Some "concat").

Definition derived_elsewhere : @TableOrigin Sample.machine :=
  mkTableOrigin None
    [Sample.leaf_A; mkTableOrigin (Some block_elsewhere) [] None; Sample.leaf_B]
    (Some "merge").

End MoreSamples.

Section MoreMeasures.
Context `{P : Platform}.

(** A block whose identifier for display needs no [relative_to]: its file
    is a null file or a filesystem file without a root folder. *)
Definition shown_as_is (loc : LocationBlock) : bool :=
  match LocationBlock_file loc with
  | NullFile _ => true
  | FilesystemFile f => is_None (root_folder f)
  end.

End MoreMeasures.

(** The first exception in a sequence of outcomes. *)
Fixpoint first_raised (outcomes : list (option exn)) : option exn :=
  match outcomes with
  | [] => None
  | Some e :: _ => Some e
  | None :: rest => first_raised rest
  end.

(** The range checks of [datetime_valid] on a given date-time, by running
    them. *)
Ltac datetime_valid_by_computation :=
  repeat split; vm_compute; solve [reflexivity | intros; discriminate].

(** * Properties *)

Example fmt0_4 : fmt0 4 2023 = "2023" /\ fmt0 2 5 = "05" /\ fmt0 2 0 = "00".
Proof. vm_compute. auto. Qed.

Example str_int_neg : str_int (-5) = "-5" /\ str_int 0 = "0" /\ str_int 12 = "12".
Proof. vm_compute. auto. Qed.

Example html_escape_ex :
  html_escape ("a<b&c" +:+ dq +:+ "'") = "a&lt;b&amp;c&quot;&#x27;".
Proof. vm_compute. reflexivity. Qed.

Example utc_fromtimestamp_2023 :
  Posix.utc_fromtimestamp 1672531200500000
  = Return (mkDatetime 2023 1 1 0 0 0 500000)
  /\ Posix.utc_fromtimestamp 951782400000000
     = Return (mkDatetime 2000 2 29 0 0 0 0)
  /\ Posix.utc_fromtimestamp 1730714399000000
     = Return (mkDatetime 2024 11 4 9 59 59 0)
  /\ Posix.utc_fromtimestamp 253402300799000000
     = Return (mkDatetime 9999 12 31 23 59 59 0)
  /\ Posix.utc_fromtimestamp 253402300800000000
     = Raise (ValueError "year 10000 is out of range")
  /\ Posix.utc_fromtimestamp (-62135596801000000)
     = Raise (ValueError "year 0 is out of range").
Proof. vm_compute. repeat split. Qed.

Example stat_resolves_dot_dot :
  Posix.stat ["home"] Sample.disk (Posix.path false [".."; "data"; "input.csv"])
  = Return 1672531200000000%Z
  /\ Posix.stat ["home"] Sample.disk (Posix.path true ["data"])
     = Return 1700000000250000%Z
  /\ Posix.stat ["home"] Sample.disk (Posix.path false ["input.csv"])
     = Raise (OSError "[Errno 2] No such file or directory: 'input.csv'")
  /\ Posix.stat ["home"] Sample.disk
       (Posix.path true ["data"; "input.csv"; "x"])
     = Raise (OSError "[Errno 20] Not a directory: '/data/input.csv/x'").
Proof. vm_compute. repeat split. Qed.

Example as_uri_quotes :
  Posix.as_uri (Posix.path true ["my data"; "a&b.csv"])
  = Return "file:///my%20data/a%26b.csv".
Proof. vm_compute. reflexivity. Qed.


Section Provenance.
Context `{P : Platform}.

(** Induction over a tree, with the hypothesis for every parent. *)
Lemma TableOrigin_ind (Q : TableOrigin -> Prop) :
  (forall il ps op, Forall Q ps -> Q (mkTableOrigin il ps op)) ->
  forall tt, Q tt.
Proof.
  intros step. fix IH 1. intros [il ps op]. apply step.
  revert ps. fix IHps 1. intros [|p ps].
  - constructor.
  - constructor; [apply IH | apply IHps].
Qed.

Lemma valid_leaf_shape il ps :
  valid (mkTableOrigin il ps None) = true -> ps = [] /\ exists loc, il = Some loc.
Proof.
  destruct il as [loc|], ps as [|p ps]; simpl; try discriminate.
  intros _. split; [reflexivity | exists loc; reflexivity].
Qed.

Lemma valid_branch_shape il ps op :
  valid (mkTableOrigin il ps (Some op)) = true ->
  il = None /\ ps <> [] /\ Forall (fun p => valid p = true) ps.
Proof.
  destruct il as [loc|], ps as [|p ps]; simpl; try discriminate.
  intros Hv. repeat split; [discriminate|].
  apply andb_prop in Hv as [Hp Hps].
  constructor; [exact Hp|]. apply Forall_forall. intros x Hx.
  rewrite forallb_forall in Hps. apply Hps.
  apply list_elem_of_In. exact Hx.
Qed.

Lemma post_init_checks_legal_state (self : TableOrigin) :
  returns (_post_init_ self) = true ->
  exactly_one_of (has_location self) (has_operation_and_parents self) = true.
Proof.
  destruct self as [[loc|] [|p ps] [op|]]; vm_compute; congruence.
Qed.

(** *** Generators *)

Lemma gen_for_all_return {A B} (f : A -> trace B) (xs : list A) :
  Forall (fun x => raised (f x) = None) xs ->
  gen_for f xs = mkTrace (concat (map (fun x => yielded (f x)) xs)) None.
Proof.
  induction 1 as [|x xs Hx _ IH]; [reflexivity|].
  unfold gen_for in *. simpl. rewrite IH. unfold gen_then. rewrite Hx.
  reflexivity.
Qed.

Lemma gen_for_raises_at {A B} (f : A -> trace B) (xs : list A) x rest e :
  Forall (fun x => raised (f x) = None) xs ->
  raised (f x) = Some e ->
  gen_for f (xs ++ x :: rest)
  = mkTrace (concat (map (fun x => yielded (f x)) xs) ++ yielded (f x)) (Some e).
Proof.
  intros Hxs Hx. induction Hxs as [|y ys Hy _ IH].
  - unfold gen_for. simpl. unfold gen_then. rewrite Hx.
    destruct (f x) as [ys r]. simpl in *. subst r. reflexivity.
  - unfold gen_for in *. simpl. rewrite IH. unfold gen_then. rewrite Hy.
    simpl. rewrite app_assoc. reflexivity.
Qed.

Lemma valid_ancestors_return (tt : TableOrigin) :
  valid tt = true -> raised (get_input_ancestors tt) = None.
Proof.
  induction tt as [il ps op IH] using TableOrigin_ind. intros Hv.
  destruct op as [op|].
  - apply valid_branch_shape in Hv as (-> & _ & Hps).
    simpl. rewrite gen_for_all_return; [reflexivity|].
    rewrite Forall_forall in *. intros p Hp. apply IH; [exact Hp|].
    apply Hps. exact Hp.
  - apply valid_leaf_shape in Hv as (-> & loc & ->). reflexivity.
Qed.

(** Running a generator object to its end gives its whole trace and leaves
    the object exhausted; nothing else in the store changes. *)
Lemma consume_all (c : trace LocationBlock) :
  forall (fuel g : nat) (h : gen_store),
    h !! g = Some c ->
    length (yielded c) < fuel ->
    consume fuel g h = Some (c, <[g := gen_return]> h).
Proof.
  destruct c as [ys r]. induction ys as [|y ys IH]; intros fuel g h Hg Hfuel;
    (destruct fuel as [|fuel]; [simpl in Hfuel; lia|]); simpl;
    unfold store_next; rewrite Hg; simpl.
  - destruct r; reflexivity.
  - rewrite (IH fuel g (<[g := mkTrace ys r]> h)).
    + unfold gen_store in *. rewrite insert_insert_eq. reflexivity.
    + unfold gen_store in *. apply lookup_insert_eq.
    + simpl in *. lia.
Qed.

Lemma call_get_input_ancestors_fresh (tt : TableOrigin) (h : gen_store) :
  h !! (call_get_input_ancestors tt h).1 = None
  /\ (call_get_input_ancestors tt h).2 !! (call_get_input_ancestors tt h).1
     = Some (get_input_ancestors tt)
  /\ forall g c, h !! g = Some c -> (call_get_input_ancestors tt h).2 !! g = Some c.
Proof.
  unfold call_get_input_ancestors, gen_store in *. simpl.
  assert (Hfresh : h !! fresh (dom h) = None).
  { apply not_elem_of_dom. apply is_fresh. }
  split; [exact Hfresh|]. split; [apply lookup_insert_eq|].
  intros g c Hg. rewrite lookup_insert_ne; [exact Hg|].
  intros <-. congruence.
Qed.

(** C3. For a valid node, [get_input_ancestors] yields exactly the node's
    own location when it is a leaf, and the concatenation, in the order of
    [parents], of what each parent yields when it is a branch, ending
    without an exception.  Every call makes a generator object of its own:
    two calls on one node give two different objects, and after the first
    has been run to its end the second still yields the whole sequence. *)
Theorem get_input_ancestors_valid (tt : TableOrigin) (Hv : valid tt = true) :
  (is_leaf tt = true ->
     exists loc, input_location tt = Some loc
                 /\ get_input_ancestors tt = mkTrace [loc] None)
  /\ (is_leaf tt = false ->
       get_input_ancestors tt
       = mkTrace (concat (map (fun p => yielded (get_input_ancestors p)) (parents tt)))
                 None)
  /\ (forall h : gen_store,
       let first := call_get_input_ancestors tt h in
       let second := call_get_input_ancestors tt first.2 in
       first.1 <> second.1
       /\ forall fuel, length (yielded (get_input_ancestors tt)) < fuel ->
            exists h1 h2,
              consume fuel first.1 second.2 = Some (get_input_ancestors tt, h1)
              /\ consume fuel second.1 h1 = Some (get_input_ancestors tt, h2)).
Proof.
  split; [|split].
  - destruct tt as [il ps [op|]]; [discriminate|]. intros _.
    apply valid_leaf_shape in Hv as (-> & loc & ->).
    exists loc. split; reflexivity.
  - destruct tt as [il ps [op|]]; [|discriminate]. intros _.
    apply valid_branch_shape in Hv as (-> & _ & Hps).
    simpl. apply gen_for_all_return.
    eapply Forall_impl; [exact Hps|]. intros p Hp.
    apply valid_ancestors_return. exact Hp.
  - intros h first second.
    destruct (call_get_input_ancestors_fresh tt h) as (Hnew1 & Hat1 & Hkeep1).
    destruct (call_get_input_ancestors_fresh tt first.2) as (Hnew2 & Hat2 & Hkeep2).
    fold first in Hnew1, Hat1, Hkeep1, Hnew2, Hat2, Hkeep2.
    fold second in Hnew2, Hat2, Hkeep2.
    assert (Hne : first.1 <> second.1).
    { intros Heq. rewrite <- Heq in Hnew2. congruence. }
    split; [exact Hne|]. intros fuel Hfuel.
    exists (<[first.1 := gen_return]> second.2),
           (<[second.1 := gen_return]> (<[first.1 := gen_return]> second.2)).
    split.
    + apply consume_all; [|exact Hfuel]. apply Hkeep2. exact Hat1.
    + apply consume_all; [|exact Hfuel].
      unfold gen_store in *. rewrite lookup_insert_ne; [exact Hat2 | exact Hne].
Qed.

(** C10. [TableOrigin()] is constructed without an error, and the generator
    that [get_input_ancestors] returns for it raises [ValueError] at the
    first [next], before any location is yielded. *)
Theorem default_TableOrigin_constructs_then_raises :
  TableOrigin_init None [] None = Return (mkTableOrigin None [] None)
  /\ get_input_ancestors (mkTableOrigin None [] None)
     = mkTrace [] (Some (ValueError "Inconsistent state of TableOrigin"))
  /\ forall h : gen_store,
       let g := call_get_input_ancestors (mkTableOrigin None [] None) h in
       exists h',
         store_next g.1 g.2
         = Some (Raises (ValueError "Inconsistent state of TableOrigin"), h').
Proof.
  split; [reflexivity|]. split; [reflexivity|].
  intros h g.
  destruct (call_get_input_ancestors_fresh (mkTableOrigin None [] None) h)
    as (_ & Hat & _).
  fold g in Hat. unfold store_next. rewrite Hat. simpl. eexists. reflexivity.
Qed.

(** C1. The constructor stores whatever it is given: the node with neither
    a location nor an operation, and a node with a location, an operation
    and a parent, are both constructed, although [_post_init_] raises on
    each and neither is in a legal state. *)
Theorem TableOrigin_init_accepts_illegal_states :
  (TableOrigin_init None [] None = Return (mkTableOrigin None [] None)
   /\ returns (_post_init_ (mkTableOrigin None [] None)) = false
   /\ exactly_one_of (has_location (mkTableOrigin None [] None))
                     (has_operation_and_parents (mkTableOrigin None [] None))
      = false)
  /\ forall loc p op,
      TableOrigin_init (Some loc) [p] (Some op)
      = Return (mkTableOrigin (Some loc) [p] (Some op))
      /\ returns (_post_init_ (mkTableOrigin (Some loc) [p] (Some op))) = false
      /\ exactly_one_of (has_location (mkTableOrigin (Some loc) [p] (Some op)))
            (has_operation_and_parents (mkTableOrigin (Some loc) [p] (Some op)))
         = false.
Proof.
  split; [|intros loc p op]; repeat split; reflexivity.
Qed.

End Provenance.

(** The tree [join(merge(A, B), A)]: [A] is reached through two parents and
    is yielded twice. *)
Lemma get_input_ancestors_valid_witness :
  valid Sample.joined = true
  /\ get_input_ancestors Sample.joined
     = mkTrace [Sample.block_A; Sample.block_B; Sample.block_A] None.
Proof.
  split; [reflexivity|].
  destruct (get_input_ancestors_valid Sample.joined eq_refl) as (_ & Hbranch & _).
  rewrite (Hbranch eq_refl). reflexivity.
Defined.

Section Rendering.
Context `{P : Platform}.

Lemma render_entry_deeper (e : nat * string) :
  render_entry (deeper e) = indent (render_entry e).
Proof. destruct e as [lev line]. reflexivity. Qed.

(** A loop whose body only appends to the buffer only appends to it. *)
Lemma for_each_appends {A B} (body : A -> list B -> result (list B)) (xs : list A) :
  Forall (fun x => forall b, body x b = let* es := body x [] in Return (b ++ es)) xs ->
  forall b1 b2,
    for_each body xs (b1 ++ b2)
    = let* r := for_each body xs b2 in Return (b1 ++ r).
Proof.
  induction 1 as [|x xs Hx _ IH]; intros b1 b2; simpl; [reflexivity|].
  rewrite (Hx (b1 ++ b2)), (Hx b2).
  destruct (body x []) as [e|es]; simpl; [reflexivity|].
  rewrite <- app_assoc. apply IH.
Qed.

Lemma for_each_commutes {A B} (f : B -> B) (body1 body2 : A -> B -> result B)
    (xs : list A) :
  Forall (fun x => forall b, body1 x (f b) = let* r := body2 x b in Return (f r)) xs ->
  forall b, for_each body1 xs (f b) = let* r := for_each body2 xs b in Return (f r).
Proof.
  induction 1 as [|x xs Hx _ IH]; intros b; simpl; [reflexivity|].
  rewrite Hx. destruct (body2 x b) as [e|b']; simpl; [reflexivity | apply IH].
Qed.

(** [visit] never looks at the buffer: it appends its entries to it. *)
Lemma visit_str_appends (tt : TableOrigin) :
  forall lev buf,
    visit_str tt lev buf = let* es := visit_str tt lev [] in Return (buf ++ es).
Proof.
  induction tt as [il ps op IH] using TableOrigin_ind. intros lev buf.
  destruct il as [loc|]; simpl.
  - destruct (LocationBlock_interactive_identifier loc); reflexivity.
  - apply (for_each_appends (fun p b => visit_str p (lev + 1) b) ps).
    eapply Forall_impl; [exact IH|]. intros p Hp b. apply Hp.
Qed.

(** Visiting one level deeper gives the same entries, one level deeper. *)
Lemma visit_str_deeper (tt : TableOrigin) :
  forall lev buf,
    visit_str tt (S lev) (map deeper buf)
    = let* r := visit_str tt lev buf in Return (map deeper r).
Proof.
  induction tt as [il ps op IH] using TableOrigin_ind. intros lev buf.
  destruct il as [loc|]; simpl.
  - destruct (LocationBlock_interactive_identifier loc); simpl; [reflexivity|].
    rewrite map_app. reflexivity.
  - pose proof (for_each_commutes (map deeper)
                  (fun p b => visit_str p (S (lev + 1)) b)
                  (fun p b => visit_str p (lev + 1) b) ps) as Hloop.
    specialize (Hloop ltac:(eapply Forall_impl; [exact IH|]; intros p Hp b; apply Hp)).
    specialize (Hloop (buf ++ [(lev, "Derived via " +:+ fmt_opt_str op +:+ " from:")])).
    rewrite map_app in Hloop. exact Hloop.
Qed.

(** The loop of [visit_branch] at the top level, in terms of the parents'
    own renderings. *)
Lemma visit_branch_parents (ps : list TableOrigin) :
  forall rs buf,
    result_map rendered_lines ps = Return rs ->
    exists es,
      for_each (fun p b => visit_str p 1 b) ps buf = Return (buf ++ es)
      /\ map render_entry es = map indent (concat rs).
Proof.
  induction ps as [|p ps IH]; intros rs buf Hrs; simpl in *.
  - injection Hrs as <-. exists []. rewrite app_nil_r. split; reflexivity.
  - unfold rendered_lines in Hrs at 1.
    destruct (visit_str p 0 []) as [e|es0] eqn:Hp; simpl in Hrs; [discriminate|].
    destruct (result_map rendered_lines ps) as [e|rs'] eqn:Hps; [discriminate|].
    injection Hrs as <-.
    rewrite visit_str_appends.
    pose proof (visit_str_deeper p 0 []) as Hd. simpl in Hd.
    rewrite Hd, Hp. simpl.
    destruct (IH rs' (buf ++ map deeper es0) eq_refl) as (es & Hloop & Hes).
    exists (map deeper es0 ++ es). split.
    + rewrite Hloop, app_assoc. reflexivity.
    + rewrite map_app, Hes. simpl. rewrite map_app. f_equal.
      rewrite !map_map. apply map_ext. intros e. apply render_entry_deeper.
Qed.

(** C6. The text rendering is the rendered lines joined by newlines.  A
    node with a location renders as that location's
    [interactive_identifier]; a valid branch with operation [op] renders as
    the line [Derived via <op> from:] followed by the lines of each parent,
    in order, each with two more spaces in front.  A branch [merge] over
    two leaves renders as three lines. *)
Theorem table_origin_as_str_lines (tt : TableOrigin) (Hv : valid tt = true) :
  table_origin_as_str tt = (let* ls := rendered_lines tt in Return (join nl ls))
  /\ (forall loc, input_location tt = Some loc ->
        table_origin_as_str tt = LocationBlock_interactive_identifier loc)
  /\ (forall op rs,
        operation tt = Some op ->
        result_map rendered_lines (parents tt) = Return rs ->
        rendered_lines tt
        = Return (("Derived via " +:+ op +:+ " from:") :: map indent (concat rs)))
  /\ (forall A B a b,
        LocationBlock_interactive_identifier A = Return a ->
        LocationBlock_interactive_identifier B = Return b ->
        table_origin_as_str
          (mkTableOrigin None
             [mkTableOrigin (Some A) [] None; mkTableOrigin (Some B) [] None]
             (Some "merge"))
        = Return ("Derived via merge from:" +:+ nl +:+ "  " +:+ a +:+ nl
                  +:+ "  " +:+ b)).
Proof.
  split; [|split; [|split]].
  - unfold table_origin_as_str, rendered_lines.
    destruct (visit_str tt 0 []); reflexivity.
  - intros loc Hloc. destruct tt as [il ps op]. simpl in Hloc. subst il.
    unfold table_origin_as_str. simpl.
    destruct (LocationBlock_interactive_identifier loc); reflexivity.
  - intros op rs Hop Hrs. destruct tt as [il ps o]. simpl in Hop, Hrs. subst o.
    apply valid_branch_shape in Hv as (-> & _ & _).
    unfold rendered_lines at 1. simpl.
    destruct (visit_branch_parents ps rs
                [(0, "Derived via " +:+ op +:+ " from:")] Hrs) as (es & -> & Hes).
    simpl. rewrite Hes. reflexivity.
  - intros A B a b HA HB. unfold table_origin_as_str. simpl.
    rewrite HA. simpl. rewrite HB. reflexivity.
Qed.

End Rendering.

Lemma table_origin_as_str_lines_witness :
  valid Sample.merged = true
  /\ rendered_lines Sample.merged
     = Return ["Derived via merge from:";
               "  Row 5 of '/data/input.csv'";
               "  'Results'!A7 of '/data/other.csv'"]
  /\ table_origin_as_str Sample.leaf_A = Return "Row 5 of '/data/input.csv'".
Proof.
  destruct (table_origin_as_str_lines Sample.merged eq_refl) as (_ & _ & Hbranch & _).
  destruct (table_origin_as_str_lines Sample.leaf_A eq_refl) as (_ & Hleaf & _).
  split; [reflexivity|]. split.
  - apply (Hbranch "merge"
             [["Row 5 of '/data/input.csv'"]; ["'Results'!A7 of '/data/other.csv'"]]);
      reflexivity.
  - rewrite (Hleaf Sample.block_A eq_refl). reflexivity.
Defined.

(** ** Fixed-width decimal fields *)

Lemma forallb_below (p : N -> bool) (bound : N) :
  forallb p (map N.of_nat (seq 0 (N.to_nat bound))) = true ->
  forall n, (n < bound)%N -> p n = true.
Proof.
  intros Hall n Hn. rewrite forallb_forall in Hall. apply Hall.
  apply in_map_iff. exists (N.to_nat n). split; [apply N2Nat.id|].
  apply in_seq. lia.
Qed.

Lemma fmt0_2_digits (n : N) :
  (n < 100)%N ->
  fmt0 2 n = String (digit (n / 10)) (String (digit (n mod 10)) EmptyString).
Proof.
  intros Hn.
  apply String.eqb_eq.
  apply (forallb_below
           (fun n => String.eqb (fmt0 2 n)
                       (String (digit (n / 10))
                          (String (digit (n mod 10)) EmptyString))) 100);
    [vm_compute; reflexivity | exact Hn].
Qed.

Lemma fmt0_4_digits (n : N) :
  (n < 10000)%N ->
  fmt0 4 n = String (digit (n / 1000)) (String (digit (n / 100 mod 10))
               (String (digit (n / 10 mod 10))
                  (String (digit (n mod 10)) EmptyString))).
Proof.
  intros Hn.
  apply String.eqb_eq.
  apply (forallb_below
           (fun n => String.eqb (fmt0 4 n)
                       (String (digit (n / 1000)) (String (digit (n / 100 mod 10))
                          (String (digit (n / 10 mod 10))
                             (String (digit (n mod 10)) EmptyString))))) 10000);
    [vm_compute; reflexivity | exact Hn].
Qed.

Lemma digit_inj (a b : N) :
  (a < 10)%N -> (b < 10)%N -> digit a = digit b -> a = b.
Proof.
  intros Ha Hb Hab. unfold digit in Hab.
  apply (f_equal N_of_ascii) in Hab.
  rewrite !N_ascii_embedding in Hab by lia. lia.
Qed.

Lemma two_digits_inj (a b : N) :
  (a < 100)%N -> (b < 100)%N ->
  digit (a / 10) = digit (b / 10) -> digit (a mod 10) = digit (b mod 10) -> a = b.
Proof.
  intros Ha Hb Hhi Hlo.
  apply digit_inj in Hhi; [|apply N.Div0.div_lt_upper_bound; lia ..].
  apply digit_inj in Hlo; [|apply N.mod_lt; lia ..].
  rewrite (N.div_mod a 10), (N.div_mod b 10) by lia. congruence.
Qed.

Lemma four_digits_inj (a b : N) :
  (a < 10000)%N -> (b < 10000)%N ->
  digit (a / 1000) = digit (b / 1000) ->
  digit (a / 100 mod 10) = digit (b / 100 mod 10) ->
  digit (a / 10 mod 10) = digit (b / 10 mod 10) ->
  digit (a mod 10) = digit (b mod 10) -> a = b.
Proof.
  intros Ha Hb H3 H2 H1 H0.
  apply digit_inj in H3; [|apply N.Div0.div_lt_upper_bound; lia ..].
  apply digit_inj in H2; [|apply N.mod_lt; lia ..].
  apply digit_inj in H1; [|apply N.mod_lt; lia ..].
  apply digit_inj in H0; [|apply N.mod_lt; lia ..].
  assert (Hsplit : forall n : N,
             n = (10 * (10 * (10 * (n / 1000) + n / 100 mod 10) + n / 10 mod 10)
                  + n mod 10)%N).
  { intros n.
    assert (E1 : (n / 100 = n / 10 / 10)%N) by (rewrite N.Div0.div_div; reflexivity).
    assert (E2 : (n / 1000 = n / 10 / 10 / 10)%N) by (rewrite !N.Div0.div_div; reflexivity).
    rewrite E2, E1.
    rewrite <- (N.div_mod (n / 10 / 10) 10) by lia.
    rewrite <- (N.div_mod (n / 10) 10) by lia.
    apply N.div_mod. lia. }
  rewrite (Hsplit a), (Hsplit b). congruence.
Qed.

(** The printed form of a valid [datetime]: nineteen characters,
    [YYYY-MM-DDTHH:MM:SS]. *)
Lemma isoformat_seconds_digits (d : datetime) :
  datetime_valid d ->
  isoformat_seconds d
  = String (digit (year d / 1000)) (String (digit (year d / 100 mod 10))
      (String (digit (year d / 10 mod 10)) (String (digit (year d mod 10))
      (String "-" (String (digit (month d / 10)) (String (digit (month d mod 10))
      (String "-" (String (digit (day d / 10)) (String (digit (day d mod 10))
      (String "T" (String (digit (hour d / 10)) (String (digit (hour d mod 10))
      (String ":" (String (digit (minute d / 10)) (String (digit (minute d mod 10))
      (String ":" (String (digit (second d / 10)) (String (digit (second d mod 10))
      EmptyString)))))))))))))))))).
Proof.
  intros (Hy & Hm & Hd & Hh & Hmin & Hs & _). unfold isoformat_seconds.
  rewrite fmt0_4_digits by lia.
  rewrite !fmt0_2_digits by lia.
  reflexivity.
Qed.

Lemma isoformat_seconds_inj (d1 d2 : datetime) :
  datetime_valid d1 -> datetime_valid d2 ->
  isoformat_seconds d1 = isoformat_seconds d2 ->
  whole_seconds d1 = whole_seconds d2.
Proof.
  intros Hv1 Hv2 Heq.
  rewrite !isoformat_seconds_digits in Heq by assumption.
  destruct Hv1 as (Hy1 & Hm1 & Hd1 & Hh1 & Hmin1 & Hs1 & _).
  destruct Hv2 as (Hy2 & Hm2 & Hd2 & Hh2 & Hmin2 & Hs2 & _).
  injection Heq as Y3 Y2 Y1 Y0 M1 M0 D1 D0 H1 H0 I1 I0 S1 S0.
  unfold whole_seconds.
  rewrite (four_digits_inj (year d1) (year d2)) by (lia || assumption).
  rewrite (two_digits_inj (month d1) (month d2)) by (lia || assumption).
  rewrite (two_digits_inj (day d1) (day d2)) by (lia || assumption).
  rewrite (two_digits_inj (hour d1) (hour d2)) by (lia || assumption).
  rewrite (two_digits_inj (minute d1) (minute d2)) by (lia || assumption).
  rewrite (two_digits_inj (second d1) (second d2)) by (lia || assumption).
  reflexivity.
Qed.

Lemma isoformat_seconds_whole (d : datetime) :
  isoformat_seconds (whole_seconds d) = isoformat_seconds d.
Proof. reflexivity. Qed.

(** ** Identifiers *)

Section Identifiers.
Context `{P : Platform}.

Lemma get_mtime_recorded (f : FilesystemLocationFile) (t : Timestamp)
    (M : datetime) :
  recorded_mtime f = Return t ->
  fromtimestamp t = Return M ->
  get_mtime f
  = Return (M,
            mkFilesystemLocationFile (_local_path f) (_load_specification f)
              (Some (mkStat t)) (root_folder f)).
Proof.
  unfold recorded_mtime, get_mtime, get_mtime_at, get_stat_result_at.
  destruct f as [p li [[t0]|] r]; simpl; intros Ht HM.
  - injection Ht as ->. rewrite HM. reflexivity.
  - rewrite Ht. simpl. rewrite HM. reflexivity.
Qed.

Lemma load_identifier_recorded (f : FilesystemLocationFile) (t : Timestamp)
    (M : datetime) :
  recorded_mtime f = Return t ->
  fromtimestamp t = Return M ->
  FilesystemLocationFile_load_identifier f
  = Return (path_str (path_absolute (_local_path f)) +:+ "@"
            +:+ isoformat_seconds M,
            mkFilesystemLocationFile (_local_path f) (_load_specification f)
              (Some (mkStat t)) (root_folder f)).
Proof.
  intros Ht HM.
  unfold FilesystemLocationFile_load_identifier,
    FilesystemLocationFile_load_identifier_at.
  fold (get_mtime f). rewrite (get_mtime_recorded f t M Ht HM). reflexivity.
Qed.

(** C2, as amended.  A filesystem file whose stat modification time [t] is
    the local date-time [M] has the identifier [P@M], [P] its absolute path
    and [M] printed to the second; computing it leaves the stat result
    cached.  A block over the file has the file's identifier followed by
    [#'<sheet>'!A<row>], where the sheet is [Sheet1] when the sheet has no
    name or the empty name and is the declared name otherwise. *)
Theorem load_identifier_format (f : FilesystemLocationFile) (t : Timestamp)
    (M : datetime)
    (Ht : recorded_mtime f = Return t)
    (HM : fromtimestamp t = Return M) :
  let file_id := path_str (path_absolute (_local_path f)) +:+ "@"
                 +:+ isoformat_seconds M in
  (exists f',
      FilesystemLocationFile_load_identifier f = Return (file_id, f')
      /\ _stat_result f' = Some (mkStat t)
      /\ _local_path f' = _local_path f)
  /\ (forall b : LocationBlock,
        LocationBlock_file b = FilesystemFile f ->
        (LocationBlock_sheet_name b = None ->
           value_of (LocationBlock_load_identifier b)
           = Return (file_id +:+ "#'Sheet1'!A" +:+ str_int (row b)))
        /\ (LocationBlock_sheet_name b = Some EmptyString ->
             value_of (LocationBlock_load_identifier b)
             = Return (file_id +:+ "#'Sheet1'!A" +:+ str_int (row b)))
        /\ (forall name,
             LocationBlock_sheet_name b = Some name -> name <> EmptyString ->
             value_of (LocationBlock_load_identifier b)
             = Return (file_id +:+ "#'" +:+ name +:+ "'!A" +:+ str_int (row b))))
  /\ (datetime_valid M -> String.length (isoformat_seconds M) = 19).
Proof.
  intros file_id. pose proof (load_identifier_recorded f t M Ht HM) as Hfile.
  fold file_id in Hfile.
  split; [|split].
  - eexists. split; [exact Hfile|]. split; reflexivity.
  - intros b Hb.
    assert (Hblock : value_of (LocationBlock_load_identifier b)
                     = Return (file_id +:+ "#'"
                               +:+ or_Sheet1 (LocationBlock_sheet_name b)
                               +:+ "'!A" +:+ str_int (row b))).
    { unfold LocationBlock_load_identifier, LocationBlock_load_identifier_at.
      rewrite Hb. unfold LocationFile_load_identifier_at.
      fold (FilesystemLocationFile_load_identifier f).
      rewrite Hfile. reflexivity. }
    split; [|split].
    + intros Hname. rewrite Hblock, Hname. reflexivity.
    + intros Hname. rewrite Hblock, Hname. reflexivity.
    + intros name Hname Hne. rewrite Hblock, Hname.
      destruct name; [contradiction | reflexivity].
  - intros Hv. rewrite isoformat_seconds_digits by exact Hv. reflexivity.
Qed.

(** C4, as amended.  Two filesystem files for one path, each with a
    recorded stat result, have different identifiers exactly when the
    local date-times of their modification times differ in a field from
    the year down to the second. *)
Theorem load_identifier_differs_iff_seconds_differ
    (f1 f2 : FilesystemLocationFile) (t1 t2 : Timestamp) (d1 d2 : datetime)
    (Hpath : _local_path f1 = _local_path f2)
    (H1 : _stat_result f1 = Some (mkStat t1))
    (H2 : _stat_result f2 = Some (mkStat t2))
    (Hd1 : fromtimestamp t1 = Return d1)
    (Hd2 : fromtimestamp t2 = Return d2)
    (Hv1 : datetime_valid d1)
    (Hv2 : datetime_valid d2) :
  exists i1 i2,
    value_of (FilesystemLocationFile_load_identifier f1) = Return i1
    /\ value_of (FilesystemLocationFile_load_identifier f2) = Return i2
    /\ (i1 <> i2 <-> whole_seconds d1 <> whole_seconds d2).
Proof.
  assert (R1 : recorded_mtime f1 = Return t1) by (unfold recorded_mtime; rewrite H1; reflexivity).
  assert (R2 : recorded_mtime f2 = Return t2) by (unfold recorded_mtime; rewrite H2; reflexivity).
  rewrite (load_identifier_recorded f1 t1 d1 R1 Hd1),
    (load_identifier_recorded f2 t2 d2 R2 Hd2).
  simpl. do 2 eexists. split; [reflexivity|]. split; [reflexivity|].
  rewrite Hpath. split.
  - intros Hne Hsec. apply Hne. f_equal. f_equal.
    rewrite <- (isoformat_seconds_whole d1), Hsec.
    apply isoformat_seconds_whole.
  - intros Hne Hid. apply Hne.
    apply isoformat_seconds_inj; [exact Hv1 | exact Hv2 |].
    apply (String.app_inj (path_str (path_absolute (_local_path f2)))) in Hid.
    injection Hid as Hiso. exact Hiso.
Qed.

End Identifiers.

(** The example of the interface description: [/data/input.csv], modified
    at 2023-01-01T00:00:00, row 5, no sheet name. *)
Lemma load_identifier_format_witness :
  recorded_mtime Sample.input_csv = Return 1672531200000000%Z
  /\ value_of (LocationBlock_load_identifier Sample.block_A)
     = Return "/data/input.csv@2023-01-01T00:00:00#'Sheet1'!A5"
  /\ value_of (LocationBlock_load_identifier Sample.block_B)
     = Return "/data/other.csv@2023-11-14T22:13:20#'Results'!A7".
Proof.
  split; [reflexivity|].
  destruct (load_identifier_format Sample.input_csv 1672531200000000%Z
              (mkDatetime 2023 1 1 0 0 0 0) eq_refl eq_refl)
    as (_ & HA & _).
  destruct (load_identifier_format Sample.other_csv 1700000000250000%Z
              (mkDatetime 2023 11 14 22 13 20 250000) eq_refl eq_refl)
    as (_ & HB & _).
  split.
  - destruct (HA Sample.block_A eq_refl) as (Hnone & _).
    rewrite (Hnone eq_refl). reflexivity.
  - destruct (HB Sample.block_B eq_refl) as (_ & _ & Hsome).
    rewrite (Hsome "Results" eq_refl ltac:(discriminate)). reflexivity.
Defined.

(** C2 as stated fails for a sheet whose declared name is the empty string:
    the name is present, and the identifier says [Sheet1]. *)
Lemma load_identifier_empty_sheet_name :
  ~ (forall (b : @LocationBlock Sample.machine) f name file_id,
       LocationBlock_file b = FilesystemFile f ->
       LocationBlock_sheet_name b = Some name ->
       value_of (FilesystemLocationFile_load_identifier f) = Return file_id ->
       value_of (LocationBlock_load_identifier b)
       = Return (file_id +:+ "#'" +:+ name +:+ "'!A" +:+ str_int (row b))).
Proof.
  intros claim.
  specialize (claim Sample.block_empty_name Sample.input_csv EmptyString
                "/data/input.csv@2023-01-01T00:00:00" eq_refl eq_refl eq_refl).
  vm_compute in claim. discriminate claim.
Qed.

Example load_identifier_empty_sheet_name_value :
  value_of (LocationBlock_load_identifier Sample.block_empty_name)
  = Return "/data/input.csv@2023-01-01T00:00:00#'Sheet1'!A5".
Proof. vm_compute. reflexivity. Qed.

(** Modification times one second apart give different identifiers; the
    theorem at 00:00:00 and 00:00:01 of 2023-01-01. *)
Lemma load_identifier_differs_iff_seconds_differ_witness :
  exists i1 i2,
    value_of (FilesystemLocationFile_load_identifier
                (Sample.input_csv_at 1672531200000000)) = Return i1
    /\ value_of (FilesystemLocationFile_load_identifier
                   (Sample.input_csv_at 1672531201000000)) = Return i2
    /\ (i1 <> i2 <->
        whole_seconds (mkDatetime 2023 1 1 0 0 0 0)
        <> whole_seconds (mkDatetime 2023 1 1 0 0 1 0)).
Proof.
  apply (load_identifier_differs_iff_seconds_differ (P := Sample.machine)
           (Sample.input_csv_at 1672531200000000)
           (Sample.input_csv_at 1672531201000000)
           1672531200000000%Z 1672531201000000%Z
           (mkDatetime 2023 1 1 0 0 0 0) (mkDatetime 2023 1 1 0 0 1 0)
           eq_refl eq_refl eq_refl eq_refl eq_refl);
    datetime_valid_by_computation.
Defined.

(** C4 as stated fails for two modification times within one second: the
    times differ by half a second and the identifiers are equal. *)
Lemma load_identifier_same_within_a_second :
  ~ (forall (f1 f2 : @FilesystemLocationFile Sample.machine) (t1 t2 : Z),
       _local_path f1 = _local_path f2 ->
       _stat_result f1 = Some (@mkStat Sample.machine t1) ->
       _stat_result f2 = Some (@mkStat Sample.machine t2) ->
       (value_of (FilesystemLocationFile_load_identifier f1)
        <> value_of (FilesystemLocationFile_load_identifier f2)
        <-> t1 <> t2)).
Proof.
  intros claim.
  destruct (claim (Sample.input_csv_at 1672531200000000)
                  (Sample.input_csv_at 1672531200500000)
                  1672531200000000%Z 1672531200500000%Z
                  eq_refl eq_refl eq_refl) as [_ Hdiffer].
  apply Hdiffer; [discriminate|]. vm_compute. reflexivity.
Qed.

Example load_identifier_same_within_a_second_values :
  value_of (FilesystemLocationFile_load_identifier
              (Sample.input_csv_at 1672531200000000))
  = Return "/data/input.csv@2023-01-01T00:00:00"
  /\ value_of (FilesystemLocationFile_load_identifier
                 (Sample.input_csv_at 1672531200500000))
     = Return "/data/input.csv@2023-01-01T00:00:00".
Proof. vm_compute. split; reflexivity. Qed.

(** ** Interactive URIs *)

Section InteractiveUri.
Context `{P : Platform}.

(** C8, as amended.  With the file URI of the path at hand,
    [interactive_uri] returns it unchanged when neither sheet nor row is
    given; with a row it appends [#'<sheet>'!A<row>], the sheet being
    [Sheet1] when none is given; with a sheet and no row it appends
    [#'<sheet>'] and no row mark.  The null variant returns [None]
    whatever the arguments. *)
Theorem interactive_uri_cases (f : FilesystemLocationFile) (file_uri : string)
    (read_only : bool) (Huri : path_as_uri (_local_path f) = Return file_uri) :
  FilesystemLocationFile_interactive_uri f None None read_only = Return file_uri
  /\ (forall r,
        FilesystemLocationFile_interactive_uri f None (Some r) read_only
        = Return (file_uri +:+ "#'Sheet1'!A" +:+ str_int r))
  /\ (forall s r,
        FilesystemLocationFile_interactive_uri f (Some s) (Some r) read_only
        = Return (file_uri +:+ "#'" +:+ s +:+ "'!A" +:+ str_int r))
  /\ (forall s,
        FilesystemLocationFile_interactive_uri f (Some s) None read_only
        = Return (file_uri +:+ "#'" +:+ s +:+ "'"))
  /\ (forall (nf : NullLocationFile) sheet row ro,
        NullLocationFile_interactive_uri nf sheet row ro = None
        /\ LocationFile_interactive_uri (NullFile nf) sheet row ro = Return None).
Proof.
  unfold FilesystemLocationFile_interactive_uri. rewrite Huri. simpl.
  repeat split; reflexivity.
Qed.

End InteractiveUri.

Lemma interactive_uri_cases_witness :
  path_as_uri (_local_path Sample.input_csv) = Return "file:///data/input.csv"
  /\ FilesystemLocationFile_interactive_uri Sample.input_csv None (Some 5%Z) false
     = Return "file:///data/input.csv#'Sheet1'!A5"
  /\ FilesystemLocationFile_interactive_uri Sample.input_csv (Some "Results") None false
     = Return "file:///data/input.csv#'Results'".
Proof.
  destruct (interactive_uri_cases Sample.input_csv "file:///data/input.csv"
              false eq_refl) as (_ & Hrow & _ & Hsheet & _).
  split; [reflexivity|]. split.
  - rewrite Hrow. reflexivity.
  - rewrite Hsheet. reflexivity.
Defined.

(** C8 as stated fails when a sheet is given and no row: what is appended
    is [#'S'], which is not [#'<sheet>'!A<row>] for any sheet and row. *)
Lemma interactive_uri_sheet_without_row :
  ~ (forall (f : @FilesystemLocationFile Sample.machine) sheet row read_only file_uri,
       path_as_uri (_local_path f) = Return file_uri ->
       sheet <> None \/ row <> None ->
       exists s r,
         FilesystemLocationFile_interactive_uri f sheet row read_only
         = Return (file_uri +:+ "#'" +:+ s +:+ "'!A" +:+ str_int r)).
Proof.
  intros claim.
  destruct (claim Sample.input_csv (Some "S") None false "file:///data/input.csv"
              eq_refl ltac:(left; discriminate)) as (s & r & Heq).
  change (FilesystemLocationFile_interactive_uri Sample.input_csv (Some "S") None false)
    with (@Return string "file:///data/input.csv#'S'") in Heq.
  injection Heq as Heq. simpl in Heq.
  destruct s as [|c1 [|c2 [|c3 s]]]; simpl in Heq; discriminate Heq.
Qed.

(** ** The markup rendering *)

(** C7.  A leaf over a sheet whose name holds a double quote: the label of
    the link is escaped, the [href] is the interactive URI as it is, with
    the quote of the sheet name inside the quoted attribute. *)
Theorem table_origin_as_html_href_unescaped :
  let uri := "file:///data/input.csv#'a" +:+ dq +:+ "b'!A5" in
  LocationBlock_interactive_uri Sample.block_quoted false = Return (Some uri)
  /\ table_origin_as_html (mkTableOrigin (Some Sample.block_quoted) [] None)
     = Return ("<a href=" +:+ dq +:+ uri +:+ dq +:+ " class=" +:+ dq
               +:+ "input-table-origin" +:+ dq +:+ ">"
               +:+ "&#x27;a&quot;b&#x27;!A5 of &#x27;/data/input.csv&#x27;"
               +:+ "</a>")
  /\ html_escape uri = "file:///data/input.csv#&#x27;a&quot;b&#x27;!A5"
  /\ html_escape uri <> uri.
Proof.
  intros uri. split; [reflexivity|]. split; [reflexivity|].
  split; [reflexivity|]. vm_compute. discriminate.
Qed.

(** The operation name of a branch does go through [html.escape]. *)
Example table_origin_as_html_operation_escaped :
  table_origin_as_html
    (mkTableOrigin None [mkTableOrigin (Some Sample.block_A) [] None]
       (Some "a<b"))
  = Return ("<div class=" +:+ dq +:+ "derived-table-origin" +:+ dq
            +:+ "><span>a&lt;b</span><ul><li><a href=" +:+ dq
            +:+ "file:///data/input.csv#'Sheet1'!A5" +:+ dq +:+ " class=" +:+ dq
            +:+ "input-table-origin" +:+ dq
            +:+ ">Row 5 of &#x27;/data/input.csv&#x27;</a></li></ul></div>").
Proof. vm_compute. reflexivity. Qed.

(** ** Issue trackers *)

Section Tracking.
Context `{P : Platform}.

(** C9.  The base-class [is_ok] is false exactly when an issue of
    [issues] has a severity of [ERROR] or more; [add_error] and
    [add_warning] are [add_issue] on an issue built from their arguments
    with severity [ERROR], respectively [WARNING]. *)
Theorem InputIssueTracker_base_behaviour {T} `{InputIssueTracker T} (self : T) :
  (InputIssueTracker_is_ok issues self = false
   <-> exists m, In m (issues self) /\ (ERROR <= severity m)%Z)
  /\ (forall issue li lf o,
        add_error self issue li lf o
        = add_issue self (mkInputIssue issue li lf o ERROR)
        /\ severity (mkInputIssue issue li lf o ERROR) = 40%Z)
  /\ (forall issue li lf o,
        add_warning self issue li lf o
        = add_issue self (mkInputIssue issue li lf o WARNING)
        /\ severity (mkInputIssue issue li lf o WARNING) = 30%Z).
Proof.
  split; [|split; intros; split; reflexivity].
  unfold InputIssueTracker_is_ok. rewrite negb_false_iff, existsb_exists.
  split; intros (m & Hin & Hsev); exists m; (split; [exact Hin|]).
  - apply Z.leb_le. exact Hsev.
  - apply Z.leb_le. exact Hsev.
Qed.

(** C5.  On the fail-fast tracker every [add_issue], [add_error] and
    [add_warning] raises [InputError]; [issues] is empty and [is_ok] is
    true, also after any number of attempts to add. *)
Theorem NullInputIssueTracker_fails_fast (self : NullInputIssueTracker) :
  (forall i, add_issue self i = InputError i)
  /\ (forall issue li lf o,
        add_error self issue li lf o
        = InputError (mkInputIssue issue li lf o ERROR))
  /\ (forall issue li lf o,
        add_warning self issue li lf o
        = InputError (mkInputIssue issue li lf o WARNING))
  /\ issues self = []
  /\ is_ok self = true
  /\ forall reported,
       issues (attempt_all self reported) = []
       /\ is_ok (attempt_all self reported) = true.
Proof.
  repeat split; reflexivity.
Qed.

End Tracking.

(** * Further properties *)

(** ** Load history *)

Lemma LoadItem_chain_ind (Q : LoadItem -> Prop) :
  (forall s, Q (mkLoadItem s None)) ->
  (forall s id iid spec,
      Q spec -> Q (mkLoadItem s (Some (mkLoadLocation id iid spec)))) ->
  forall li, Q li.
Proof.
  intros Hroot Hstep. fix IH 1. intros [s [[id iid spec]|]].
  - apply Hstep, IH.
  - apply Hroot.
Qed.

Lemma load_history_head (li : LoadItem) :
  exists rest, load_history li = li :: rest.
Proof. destruct li as [s [[id iid spec]|]]; eexists; reflexivity. Qed.

(** X1.  The load history starts with the item itself and ends with a root
    request, one without a source; each item of the history is followed by
    the load specification of its own source. *)
Theorem load_history_chain (li : LoadItem) :
  (exists rest, load_history li = li :: rest)
  /\ (exists root,
        last (load_history li) = Some root
        /\ source root = None
        /\ source_identifier root = "<root>")
  /\ (forall i a b,
        load_history li !! i = Some a ->
        load_history li !! S i = Some b ->
        exists id iid, source a = Some (mkLoadLocation id iid b)).
Proof.
  split; [apply load_history_head|]. split.
  - induction li as [s|s id iid spec (root & Hlast & Hroot)] using LoadItem_chain_ind.
    + exists (mkLoadItem s None). repeat split; reflexivity.
    + exists root. split; [|exact Hroot].
      destruct (load_history_head spec) as (rest & Hspec).
      simpl. rewrite Hspec in *. exact Hlast.
  - induction li as [s|s id iid spec IH] using LoadItem_chain_ind; intros i a b Ha Hb.
    + destruct i; discriminate Hb.
    + destruct i as [|i].
      * simpl in Ha, Hb. injection Ha as <-.
        destruct (load_history_head spec) as (rest & Hspec).
        rewrite Hspec in Hb. injection Hb as <-. exists id, iid. reflexivity.
      * apply (IH i a b); assumption.
Qed.

(** X2.  The string form of a root request is its own clause; the string
    form of a request with a source is its own clause, a semicolon, and the
    string form of the request that the source came from. *)
Theorem LoadItem_str_chain :
  (forall s, LoadItem_str (mkLoadItem s None)
             = "included as " +:+ dq +:+ s +:+ dq +:+ " from " +:+ dq
               +:+ "<root>" +:+ dq)
  /\ (forall s id iid spec,
        LoadItem_str (mkLoadItem s (Some (mkLoadLocation id iid spec)))
        = ("included as " +:+ dq +:+ s +:+ dq +:+ " from " +:+ dq +:+ iid +:+ dq)
          +:+ ";" +:+ LoadItem_str spec).
Proof.
  split; [reflexivity|]. intros s id iid spec. unfold LoadItem_str.
  destruct (load_history_head spec) as (rest & Hspec).
  simpl. rewrite Hspec. reflexivity.
Qed.

Example LoadItem_str_nested :
  LoadItem_str MoreSamples.nested_request
  = "included as " +:+ dq +:+ "input.csv" +:+ dq +:+ " from " +:+ dq
    +:+ "Row 3 of '/data/all.csv'" +:+ dq +:+ ";included as " +:+ dq
    +:+ "/data/all.csv" +:+ dq +:+ " from " +:+ dq +:+ "<root>" +:+ dq.
Proof. vm_compute. reflexivity. Qed.

(** ** The stat cache *)

Section StatCache.
Context `{P : Platform}.


Lemma get_stat_result_at_held (stat : Path -> result Timestamp)
    (f : FilesystemLocationFile) (st : stat_result) :
  _stat_result f = Some st -> get_stat_result_at stat true f = Return (st, f).
Proof. unfold get_stat_result_at. intros ->. reflexivity. Qed.

Lemma get_mtime_at_held (stat : Path -> result Timestamp)
    (f : FilesystemLocationFile) (st : stat_result) :
  _stat_result f = Some st ->
  get_mtime_at stat f
  = let* mtime := fromtimestamp (st_mtime st) in Return (mtime, f).
Proof.
  intros Hheld. unfold get_mtime_at.
  rewrite (get_stat_result_at_held stat f st Hheld). reflexivity.
Qed.

Lemma load_identifier_at_held (stat : Path -> result Timestamp)
    (f : FilesystemLocationFile) (st : stat_result) :
  _stat_result f = Some st ->
  FilesystemLocationFile_load_identifier_at stat f
  = let* mtime := fromtimestamp (st_mtime st) in
    Return (path_str (path_absolute (_local_path f)) +:+ "@"
            +:+ isoformat_seconds mtime, f).
Proof.
  intros Hheld. unfold FilesystemLocationFile_load_identifier_at.
  rewrite (get_mtime_at_held stat f st Hheld).
  destruct (fromtimestamp (st_mtime st)); reflexivity.
Qed.

(** X3.  A filesystem file that holds a stat result answers from it,
    whatever the file system says at the time of the call, also when the
    path can no longer be stat'ed: [get_stat_result(cached=True)] returns
    the held result, [get_mtime] and [load_identifier] are computed from
    its time, and the file is left as it is.
    [get_stat_result(cached=False)] does ask the file system, and returns
    and holds what it answers. *)
Theorem held_stat_result_is_used (stat : Path -> result Timestamp)
    (f : FilesystemLocationFile) (st : stat_result)
    (Hheld : _stat_result f = Some st) :
  get_stat_result_at stat true f = Return (st, f)
  /\ get_mtime_at stat f
     = (let* mtime := fromtimestamp (st_mtime st) in Return (mtime, f))
  /\ FilesystemLocationFile_load_identifier_at stat f
     = (let* mtime := fromtimestamp (st_mtime st) in
        Return (path_str (path_absolute (_local_path f)) +:+ "@"
                +:+ isoformat_seconds mtime, f))
  /\ get_stat_result_at stat false f
     = (let* t := stat (_local_path f) in
        Return (mkStat t,
                mkFilesystemLocationFile (_local_path f) (_load_specification f)
                  (Some (mkStat t)) (root_folder f))).
Proof.
  split; [apply get_stat_result_at_held, Hheld|].
  split; [apply get_mtime_at_held, Hheld|].
  split; [apply load_identifier_at_held, Hheld|].
  unfold get_stat_result_at. reflexivity.
Qed.



(** X5.  A filesystem file with no recorded stat result whose path cannot
    be stat'ed has no load identifier: the call raises what the file system
    raised, and so does [load_identifier] of every block over the file. *)
Theorem load_identifier_stat_fails (f : FilesystemLocationFile) (e : exn)
    (Hnone : _stat_result f = None)
    (Hstat : path_stat (_local_path f) = Raise e) :
  FilesystemLocationFile_load_identifier f = Raise e
  /\ get_stat_result false f = Raise e
  /\ forall b : LocationBlock,
       LocationBlock_file b = FilesystemFile f ->
       LocationBlock_load_identifier b = Raise e.
Proof.
  assert (Hfile : FilesystemLocationFile_load_identifier f = Raise e).
  { unfold FilesystemLocationFile_load_identifier,
      FilesystemLocationFile_load_identifier_at, get_mtime_at, get_stat_result_at.
    rewrite Hnone, Hstat. reflexivity. }
  split; [exact Hfile|]. split.
  - unfold get_stat_result, get_stat_result_at. rewrite Hstat. reflexivity.
  - intros b Hb.
    unfold LocationBlock_load_identifier, LocationBlock_load_identifier_at.
    rewrite Hb. unfold LocationFile_load_identifier_at.
    fold (FilesystemLocationFile_load_identifier f).
    rewrite Hfile. reflexivity.
Qed.

(** X19.  When the modification time of a filesystem file cannot be held
    by a [datetime], so that [fromtimestamp] raises, [get_mtime] and
    [load_identifier] raise the same exception, and so does
    [load_identifier] of every block over the file. *)
Theorem load_identifier_time_out_of_range (f : FilesystemLocationFile)
    (t : Timestamp) (e : exn)
    (Ht : recorded_mtime f = Return t)
    (He : fromtimestamp t = Raise e) :
  get_mtime f = Raise e
  /\ FilesystemLocationFile_load_identifier f = Raise e
  /\ forall b : LocationBlock,
       LocationBlock_file b = FilesystemFile f ->
       LocationBlock_load_identifier b = Raise e.
Proof.
  assert (Hmtime : get_mtime f = Raise e).
  { unfold recorded_mtime in Ht. unfold get_mtime, get_mtime_at, get_stat_result_at.
    destruct (_stat_result f) as [[t0]|]; simpl in *.
    - injection Ht as ->. rewrite He. reflexivity.
    - rewrite Ht. simpl. rewrite He. reflexivity. }
  assert (Hfile : FilesystemLocationFile_load_identifier f = Raise e).
  { unfold FilesystemLocationFile_load_identifier,
      FilesystemLocationFile_load_identifier_at.
    fold (get_mtime f). rewrite Hmtime. reflexivity. }
  split; [exact Hmtime|]. split; [exact Hfile|].
  intros b Hb.
  unfold LocationBlock_load_identifier, LocationBlock_load_identifier_at.
  rewrite Hb. unfold LocationFile_load_identifier_at.
  fold (FilesystemLocationFile_load_identifier f).
  rewrite Hfile. reflexivity.
Qed.

End StatCache.

(** [/data/input.csv] with a held modification time on the first day of
    the year 10000. *)
Lemma load_identifier_time_out_of_range_witness :
  FilesystemLocationFile_load_identifier
    (Sample.input_csv_at 253402300800000000)
  = Raise (ValueError "year 10000 is out of range").
Proof.
  apply (load_identifier_time_out_of_range (P := Sample.machine)
           (Sample.input_csv_at 253402300800000000) 253402300800000000%Z
           (ValueError "year 10000 is out of range") eq_refl eq_refl).
Defined.

(** [/data/input.csv] with the stat result of 2022-01-01 held, on a disk
    where the file was modified on 2023-01-01, and on a disk where it is
    gone: the identifier is that of 2022 on both. *)
Lemma held_stat_result_is_used_witness :
  FilesystemLocationFile_load_identifier_at (P := Sample.machine)
    (Posix.stat ["home"] Sample.disk) (Sample.input_csv_at 1640995200000000)
  = Return ("/data/input.csv@2022-01-01T00:00:00",
            Sample.input_csv_at 1640995200000000)
  /\ FilesystemLocationFile_load_identifier_at (P := Sample.machine)
       (Posix.stat ["home"] MoreSamples.wiped_disk)
       (Sample.input_csv_at 1640995200000000)
     = Return ("/data/input.csv@2022-01-01T00:00:00",
               Sample.input_csv_at 1640995200000000)
  /\ get_stat_result_at (P := Sample.machine)
       (Posix.stat ["home"] Sample.disk) false
       (Sample.input_csv_at 1640995200000000)
     = Return (@mkStat Sample.machine 1672531200000000%Z,
               Sample.input_csv_at 1672531200000000).
Proof.
  destruct (held_stat_result_is_used (P := Sample.machine)
              (Posix.stat ["home"] Sample.disk)
              (Sample.input_csv_at 1640995200000000)
              (@mkStat Sample.machine 1640995200000000%Z) eq_refl)
    as (_ & _ & Hdisk & Hfresh).
  destruct (held_stat_result_is_used (P := Sample.machine)
              (Posix.stat ["home"] MoreSamples.wiped_disk)
              (Sample.input_csv_at 1640995200000000)
              (@mkStat Sample.machine 1640995200000000%Z) eq_refl)
    as (_ & _ & Hwiped & _).
  split; [rewrite Hdisk; reflexivity|].
  split; [rewrite Hwiped; reflexivity|].
  rewrite Hfresh. reflexivity.
Defined.

Lemma load_identifier_stat_fails_witness :
  LocationBlock_load_identifier MoreSamples.block_missing
  = Raise (OSError "[Errno 2] No such file or directory: '/data/missing.csv'")
  /\ LocationBlock_interactive_identifier MoreSamples.block_missing
     = Return "Row 2 of '/data/missing.csv'".
Proof.
  split; [|reflexivity].
  apply (load_identifier_stat_fails (P := Sample.machine)
           MoreSamples.missing_csv
           (OSError "[Errno 2] No such file or directory: '/data/missing.csv'")
           eq_refl eq_refl).
  reflexivity.
Defined.

(** The identifier of [/data/input.csv] is read off the disk once; the file
    left behind gives the same identifier after the disk was wiped, where
    a file that never read it raises. *)
Example load_identifier_stable_input_csv :
  exists f',
    FilesystemLocationFile_load_identifier_at (P := Sample.machine)
      (Posix.stat ["home"] Sample.disk) Sample.input_csv
    = Return ("/data/input.csv@2023-01-01T00:00:00", f')
    /\ FilesystemLocationFile_load_identifier_at (P := Sample.machine)
         (Posix.stat ["home"] MoreSamples.wiped_disk) f'
       = Return ("/data/input.csv@2023-01-01T00:00:00", f')
    /\ FilesystemLocationFile_load_identifier_at (P := Sample.machine)
         (Posix.stat ["home"] MoreSamples.wiped_disk) Sample.input_csv
       = Raise (OSError "[Errno 2] No such file or directory: '/data/input.csv'").
Proof. eexists. repeat split; reflexivity. Qed.

(** ** Block and file identifiers *)

Section BlockIdentifiers.
Context `{P : Platform}.

Lemma block_load_identifier_value (b : LocationBlock) :
  value_of (LocationBlock_load_identifier b)
  = let* i := value_of (LocationFile_load_identifier (LocationBlock_file b)) in
    Return (i +:+ "#'" +:+ or_Sheet1 (LocationBlock_sheet_name b) +:+ "'!A"
              +:+ str_int (row b)).
Proof.
  unfold LocationBlock_load_identifier, LocationBlock_load_identifier_at,
    LocationFile_load_identifier.
  destruct (LocationFile_load_identifier_at path_stat (LocationBlock_file b))
    as [e|[i lf]]; reflexivity.
Qed.

(** X6.  Two blocks of the same sheet name over the same file have the
    same load identifier exactly when they have the same row. *)
Theorem block_load_identifier_row_injective (b1 b2 : LocationBlock)
    (i1 i2 : string)
    (Hfile : LocationBlock_file b1 = LocationBlock_file b2)
    (Hname : LocationBlock_sheet_name b1 = LocationBlock_sheet_name b2)
    (H1 : value_of (LocationBlock_load_identifier b1) = Return i1)
    (H2 : value_of (LocationBlock_load_identifier b2) = Return i2) :
  i1 = i2 <-> row b1 = row b2.
Proof.
  rewrite block_load_identifier_value in H1, H2. rewrite <- Hfile, <- Hname in H2.
  destruct (value_of (LocationFile_load_identifier (LocationBlock_file b1)))
    as [e|i]; simpl in H1, H2; [discriminate|].
  injection H1 as <-. injection H2 as <-. split.
  - intros Heq.
    apply (String.app_inj i) in Heq. simpl in Heq. injection Heq as Heq.
    apply (String.app_inj (or_Sheet1 (LocationBlock_sheet_name b1))) in Heq.
    simpl in Heq. injection Heq as Heq.
    unfold str_int in Heq. exact (pretty_Z_inj _ _ Heq).
  - intros ->. reflexivity.
Qed.

(** X7.  A sheet without a name, a sheet whose name is the empty string and
    a sheet named [Sheet1] are not told apart: blocks at the same row over
    the same file have the same load identifier, or raise alike. *)
Theorem block_load_identifier_unnamed_is_Sheet1 (lf : LocationFile) (r : Z)
    (m1 m2 m3 : gmap string string) :
  value_of (LocationBlock_load_identifier
              (mkLocationBlock (mkLocationSheet lf None m1) r))
  = value_of (LocationBlock_load_identifier
                (mkLocationBlock (mkLocationSheet lf (Some "Sheet1") m2) r))
  /\ value_of (LocationBlock_load_identifier
                 (mkLocationBlock (mkLocationSheet lf (Some EmptyString) m3) r))
     = value_of (LocationBlock_load_identifier
                   (mkLocationBlock (mkLocationSheet lf (Some "Sheet1") m2) r)).
Proof.
  rewrite !block_load_identifier_value. split; reflexivity.
Qed.

End BlockIdentifiers.

Lemma block_load_identifier_row_injective_witness :
  "/data/input.csv@2023-01-01T00:00:00#'Sheet1'!A5"
  = "/data/input.csv@2023-01-01T00:00:00#'Sheet1'!A6"
  <-> 5%Z = 6%Z.
Proof.
  apply (block_load_identifier_row_injective (P := Sample.machine)
           Sample.block_A (mkLocationBlock (sheet Sample.block_A) 6)
           _ _ eq_refl eq_refl eq_refl eq_refl).
Defined.

(** X8.  Without an [id], two null files of the same description have the
    same load identifier exactly when the random parts are the same; with
    an [id], the identifier is the [id] and the random part plays no role.
    The load specification is a root request for the description, which is
    [Unknown] when none is given. *)
Theorem NullLocationFile_init_identifier :
  (forall description r1 r2,
      _load_identifier (NullLocationFile_init r1 description None)
      = _load_identifier (NullLocationFile_init r2 description None)
      <-> r1 = r2)
  /\ (forall description id r,
        _load_identifier (NullLocationFile_init r description (Some id)) = id)
  /\ (forall description id r,
        load_history (_spec (NullLocationFile_init r description id))
        = [mkLoadItem (default "Unknown" description) None]).
Proof.
  split; [|split].
  - intros description r1 r2. simpl. split.
    + intros Heq. apply (String.app_inj (default "Unknown" description)) in Heq.
      simpl in Heq. injection Heq as Heq. exact Heq.
    + intros ->. reflexivity.
  - reflexivity.
  - intros [d|] id r; reflexivity.
Qed.

(** ** Traversal and rendering of arbitrary nodes *)

Section AnyNode.
Context `{P : Platform}.

Lemma gen_for_raised_none {A B} (f : A -> trace B) (xs : list A) :
  raised (gen_for f xs) = None <-> Forall (fun x => raised (f x) = None) xs.
Proof.
  induction xs as [|x xs IH]; [split; [constructor | reflexivity]|].
  unfold gen_for in *. simpl. unfold gen_then at 1.
  destruct (raised (f x)) as [e|] eqn:Hx; simpl.
  - rewrite Hx. split; [discriminate|]. intros Hall.
    apply Forall_cons in Hall as [Hbad _]. congruence.
  - rewrite IH. split.
    + intros Hall. constructor; assumption.
    + intros Hall. apply Forall_cons in Hall as [_ Hall]. exact Hall.
Qed.

Lemma gen_for_raised_some {A B} (f : A -> trace B) (xs : list A) (e : exn) :
  raised (gen_for f xs) = Some e -> exists x, In x xs /\ raised (f x) = Some e.
Proof.
  induction xs as [|x xs IH]; [discriminate|].
  unfold gen_for in *. simpl. unfold gen_then at 1.
  destruct (raised (f x)) as [e0|] eqn:Hx; simpl.
  - rewrite Hx. intros [= ->]. exists x. split; [left; reflexivity | exact Hx].
  - intros Hrest. destruct (IH Hrest) as (y & Hy & Hraised).
    exists y. split; [right; exact Hy | exact Hraised].
Qed.

(** X9.  On any tree, checked or not, the generator of
    [get_input_ancestors] ends without an exception exactly when every
    node it reaches that has no operation has a location; the only
    exception it ever raises is the [ValueError] of the inconsistent
    state. *)
Theorem get_input_ancestors_raises_iff (tt : TableOrigin) :
  (raised (get_input_ancestors tt) = None <-> consistent tt = true)
  /\ (forall e, raised (get_input_ancestors tt) = Some e ->
        e = ValueError "Inconsistent state of TableOrigin").
Proof.
  induction tt as [il ps op IH] using TableOrigin_ind.
  destruct op as [op|]; simpl.
  - split.
    + rewrite gen_for_raised_none, forallb_forall, Forall_forall.
      rewrite Forall_forall in IH.
      split; intros Hall p Hp.
      * apply IH; [apply list_elem_of_In; exact Hp|].
        apply Hall. apply list_elem_of_In. exact Hp.
      * apply IH; [exact Hp|]. apply Hall. apply list_elem_of_In. exact Hp.
    + intros e He. apply gen_for_raised_some in He as (p & Hp & He).
      rewrite Forall_forall in IH.
      apply (IH p); [apply list_elem_of_In; exact Hp | exact He].
  - destruct il as [loc|]; simpl.
    + split; [split; reflexivity | discriminate].
    + split; [split; discriminate|]. intros e [= <-]. reflexivity.
Qed.

(** X10.  Nodes in an illegal state are processed without a check, and not
    alike.  A node with a location and an operation is rendered as a leaf,
    its operation and parents left out, and traversed as a branch, its own
    location never yielded.  A node with neither renders to text under the
    header [Derived via None from:], makes the markup rendering raise
    [AttributeError], and makes the traversal raise [ValueError]. *)
Theorem illegal_nodes_unchecked :
  (forall loc ps op,
      table_origin_as_str (mkTableOrigin (Some loc) ps (Some op))
      = LocationBlock_interactive_identifier loc
      /\ table_origin_as_html (mkTableOrigin (Some loc) ps (Some op))
         = leaf_link loc
      /\ get_input_ancestors (mkTableOrigin (Some loc) ps (Some op))
         = gen_for get_input_ancestors ps
      /\ get_input_ancestors (mkTableOrigin (Some loc) [] (Some op))
         = mkTrace [] None)
  /\ (forall ps,
        get_input_ancestors (mkTableOrigin None ps None)
        = mkTrace [] (Some (ValueError "Inconsistent state of TableOrigin"))
        /\ table_origin_as_html (mkTableOrigin None ps None)
           = Raise (AttributeError "'NoneType' object has no attribute 'replace'")
        /\ forall rs,
             result_map rendered_lines ps = Return rs ->
             rendered_lines (mkTableOrigin None ps None)
             = Return ("Derived via None from:" :: map indent (concat rs))).
Proof.
  split.
  - intros loc ps op. repeat split.
    unfold table_origin_as_str. simpl.
    destruct (LocationBlock_interactive_identifier loc); reflexivity.
  - intros ps. split; [reflexivity|]. split; [reflexivity|].
    intros rs Hrs.
    destruct (visit_branch_parents ps rs [(0, "Derived via None from:")] Hrs)
      as (es & Hloop & Hes).
    change (rendered_lines (mkTableOrigin None ps None))
      with (let* buf := for_each (fun p b => visit_str p 1 b) ps
                          [(0, "Derived via None from:")] in
            Return (map render_entry buf)).
    rewrite Hloop. simpl. rewrite Hes. reflexivity.
Qed.

End AnyNode.

(** ** Rendering against traversal *)

Lemma raised_by_bind_return {A B} (m : result A) (k : A -> B) :
  raised_by (let* x := m in Return (k x)) = raised_by m.
Proof. destruct m; reflexivity. Qed.

Lemma raised_by_none {A} (m : result A) :
  raised_by m = None -> exists a, m = Return a.
Proof. destruct m as [e|a]; [discriminate | eexists; reflexivity]. Qed.

Lemma raised_by_result_map {A B} (f : A -> result B) (xs : list A) :
  raised_by (result_map f xs) = first_raised (map (fun x => raised_by (f x)) xs).
Proof.
  induction xs as [|x xs IH]; [reflexivity|]. simpl.
  destruct (f x) as [e|y]; [reflexivity|]. simpl.
  rewrite <- IH. destruct (result_map f xs); reflexivity.
Qed.

Lemma first_raised_app (l1 l2 : list (option exn)) :
  first_raised (l1 ++ l2)
  = match first_raised l1 with Some e => Some e | None => first_raised l2 end.
Proof.
  induction l1 as [|[e|] l1 IH]; simpl; [reflexivity | reflexivity | exact IH].
Qed.

Lemma first_raised_concat {A} (g : A -> option exn) (lls : list (list A)) :
  first_raised (map g (concat lls))
  = first_raised (map (fun l => first_raised (map g l)) lls).
Proof.
  induction lls as [|l lls IH]; [reflexivity|]. simpl.
  rewrite map_app, first_raised_app, IH.
  destruct (first_raised (map g l)); reflexivity.
Qed.

Lemma first_raised_all_none (l : list (option exn)) :
  Forall (fun o => o = None) l -> first_raised l = None.
Proof. induction 1 as [|o l -> _ IH]; [reflexivity | exact IH]. Qed.

Lemma raised_by_for_each {A S} (body : A -> S -> result S) (r : A -> option exn)
    (xs : list A) :
  Forall (fun x => forall s, raised_by (body x s) = r x) xs ->
  forall s, raised_by (for_each body xs s) = first_raised (map r xs).
Proof.
  induction 1 as [|x xs Hx _ IH]; intros s; [reflexivity|]. simpl.
  specialize (Hx s). destruct (body x s) as [e|s']; simpl in Hx; rewrite <- Hx.
  - reflexivity.
  - apply IH.
Qed.

Lemma for_each_length {A B} (body : A -> list B -> result (list B))
    (n : A -> nat) (xs : list A) :
  Forall (fun x => forall b b', body x b = Return b' -> length b' = length b + n x) xs ->
  forall b b',
    for_each body xs b = Return b' -> length b' = length b + list_sum (map n xs).
Proof.
  induction 1 as [|x xs Hx _ IH]; intros b b' Hrun; simpl in *.
  - injection Hrun as <-. lia.
  - destruct (body x b) as [e|b1] eqn:Hb; [discriminate|].
    rewrite (IH b1 b' Hrun), (Hx b b1 Hb). lia.
Qed.

Section RenderingAgainstTraversal.
Context `{P : Platform}.

Lemma valid_branch_ancestors ps op :
  valid (mkTableOrigin None ps (Some op)) = true ->
  yielded (get_input_ancestors (mkTableOrigin None ps (Some op)))
  = concat (map (fun p => yielded (get_input_ancestors p)) ps).
Proof.
  intros Hv. apply valid_branch_shape in Hv as (_ & _ & Hps). simpl.
  rewrite gen_for_all_return; [reflexivity|].
  eapply Forall_impl; [exact Hps|]. intros p Hp.
  apply valid_ancestors_return. exact Hp.
Qed.

Lemma visit_str_length (tt : TableOrigin) :
  valid tt = true ->
  forall lev buf buf',
    visit_str tt lev buf = Return buf' ->
    length buf' = length buf + node_count tt.
Proof.
  induction tt as [il ps op IH] using TableOrigin_ind. intros Hv lev buf buf'.
  destruct op as [op|].
  - apply valid_branch_shape in Hv as (-> & _ & Hps). simpl. intros Hrun.
    apply (for_each_length (fun p b => visit_str p (lev + 1) b) node_count) in Hrun.
    + rewrite Hrun, length_app. simpl. lia.
    + rewrite Forall_forall in *. intros p Hp b b'.
      apply IH; [exact Hp | apply Hps; exact Hp].
  - apply valid_leaf_shape in Hv as (-> & loc & ->). simpl.
    destruct (LocationBlock_interactive_identifier loc); simpl; [discriminate|].
    intros [= <-]. rewrite length_app. simpl. lia.
Qed.

Lemma visit_str_raised (tt : TableOrigin) :
  valid tt = true ->
  forall lev buf,
    raised_by (visit_str tt lev buf)
    = first_raised
        (map (fun loc => raised_by (LocationBlock_interactive_identifier loc))
           (yielded (get_input_ancestors tt))).
Proof.
  induction tt as [il ps op IH] using TableOrigin_ind. intros Hv lev buf.
  destruct op as [op|].
  - pose proof Hv as Hshape. apply valid_branch_shape in Hshape as (-> & _ & Hps).
    rewrite (valid_branch_ancestors ps op Hv), first_raised_concat, map_map.
    simpl. apply raised_by_for_each.
    rewrite Forall_forall in *. intros p Hp b.
    apply IH; [exact Hp | apply Hps; exact Hp].
  - apply valid_leaf_shape in Hv as (-> & loc & ->). simpl.
    destruct (LocationBlock_interactive_identifier loc); reflexivity.
Qed.

Lemma visit_html_raised (tt : TableOrigin) :
  valid tt = true ->
  raised_by (visit_html tt)
  = first_raised
      (map (fun loc => raised_by (leaf_link loc)) (yielded (get_input_ancestors tt))).
Proof.
  induction tt as [il ps op IH] using TableOrigin_ind. intros Hv.
  destruct op as [op|].
  - pose proof Hv as Hshape. apply valid_branch_shape in Hshape as (-> & _ & Hps).
    rewrite (valid_branch_ancestors ps op Hv), first_raised_concat, map_map.
    change (visit_html (mkTableOrigin None ps (Some op)))
      with (let* items := result_map
                            (fun p => let* r := visit_html p in
                                      Return ("<li>" +:+ r +:+ "</li>")) ps in
            Return ("<div class=" +:+ dq +:+ "derived-table-origin" +:+ dq
                    +:+ "><span>" +:+ html_escape op +:+ "</span><ul>"
                    +:+ join nl items +:+ "</ul></div>")).
    rewrite raised_by_bind_return, raised_by_result_map. f_equal.
    apply map_ext_in. intros p Hp. rewrite raised_by_bind_return.
    rewrite Forall_forall in *.
    apply IH; [apply list_elem_of_In; exact Hp|].
    apply Hps. apply list_elem_of_In. exact Hp.
  - apply valid_leaf_shape in Hv as (-> & loc & ->).
    change (raised_by (leaf_link loc) = first_raised [raised_by (leaf_link loc)]).
    destruct (leaf_link loc); reflexivity.
Qed.

(** X11.  The text rendering of a valid tree has one line for each node of
    the tree. *)
Theorem rendered_lines_count (tt : TableOrigin) (ls : list string)
    (Hv : valid tt = true) (Hls : rendered_lines tt = Return ls) :
  length ls = node_count tt.
Proof.
  unfold rendered_lines in Hls.
  destruct (visit_str tt 0 []) as [e|buf] eqn:Hrun; simpl in Hls; [discriminate|].
  injection Hls as <-. rewrite length_map.
  apply (visit_str_length tt Hv) in Hrun. exact Hrun.
Qed.

(** X12.  The text rendering of a valid tree raises exactly when the
    [interactive_identifier] of one of its input ancestors raises, and
    then it raises what the first such ancestor, in the order of
    [get_input_ancestors], raises. *)
Theorem table_origin_as_str_raises (tt : TableOrigin) (Hv : valid tt = true) :
  raised_by (table_origin_as_str tt)
  = raised_by (result_map LocationBlock_interactive_identifier
                 (yielded (get_input_ancestors tt))).
Proof.
  unfold table_origin_as_str.
  rewrite raised_by_bind_return, raised_by_result_map.
  apply visit_str_raised. exact Hv.
Qed.

(** X13.  The markup rendering of a valid tree raises exactly when the
    link of one of its input ancestors cannot be built, its URI or its
    identifier raising, and then it raises what the first such ancestor
    raises. *)
Theorem table_origin_as_html_raises (tt : TableOrigin) (Hv : valid tt = true) :
  raised_by (table_origin_as_html tt)
  = raised_by (result_map leaf_link (yielded (get_input_ancestors tt))).
Proof.
  unfold table_origin_as_html. rewrite raised_by_result_map.
  apply visit_html_raised. exact Hv.
Qed.

(** X14.  A valid tree whose input ancestors are all blocks of null files
    renders in both forms without an exception. *)
Theorem null_file_origins_render (tt : TableOrigin) (Hv : valid tt = true)
    (Hnull : Forall (fun loc => over_null_file loc = true)
               (yielded (get_input_ancestors tt))) :
  (exists text, table_origin_as_str tt = Return text)
  /\ (exists markup, table_origin_as_html tt = Return markup).
Proof.
  split; apply raised_by_none.
  - unfold table_origin_as_str.
    rewrite raised_by_bind_return, (visit_str_raised tt Hv).
    apply first_raised_all_none, Forall_map.
    eapply Forall_impl; [exact Hnull|]. intros loc Hloc.
    unfold over_null_file in Hloc.
    unfold LocationBlock_interactive_identifier.
    destruct (LocationBlock_file loc); [reflexivity | discriminate].
  - unfold table_origin_as_html. rewrite (visit_html_raised tt Hv).
    apply first_raised_all_none, Forall_map.
    eapply Forall_impl; [exact Hnull|]. intros loc Hloc.
    unfold over_null_file in Hloc.
    unfold leaf_link, visit_leaf_html, LocationBlock_interactive_uri,
      LocationBlock_interactive_identifier.
    destruct (LocationBlock_file loc); [reflexivity | discriminate].
Qed.

End RenderingAgainstTraversal.

Lemma rendered_lines_count_witness :
  node_count Sample.joined = 5
  /\ length ["Derived via join from:";
             "  Derived via merge from:";
             "    Row 5 of '/data/input.csv'";
             "    'Results'!A7 of '/data/other.csv'";
             "  Row 5 of '/data/input.csv'"] = node_count Sample.joined.
Proof.
  split; [reflexivity|].
  apply (rendered_lines_count (P := Sample.machine) Sample.joined _ eq_refl eq_refl).
Defined.

(** The second of three parents is shown relative to a folder it is not
    under: both renderings raise the [ValueError] of [relative_to]. *)
Lemma table_origin_as_str_raises_witness :
  raised_by (table_origin_as_str MoreSamples.derived_elsewhere)
  = Some (ValueError "'/data/input.csv' is not in the subpath of '/elsewhere' OR one path is relative and the other is absolute.")
  /\ raised_by (table_origin_as_str Sample.joined) = None.
Proof.
  split.
  - rewrite (table_origin_as_str_raises MoreSamples.derived_elsewhere eq_refl).
    reflexivity.
  - rewrite (table_origin_as_str_raises Sample.joined eq_refl). reflexivity.
Defined.

Lemma table_origin_as_html_raises_witness :
  raised_by (table_origin_as_html MoreSamples.derived_elsewhere)
  = Some (ValueError "'/data/input.csv' is not in the subpath of '/elsewhere' OR one path is relative and the other is absolute.")
  /\ raised_by (table_origin_as_html Sample.joined) = None.
Proof.
  split.
  - rewrite (table_origin_as_html_raises MoreSamples.derived_elsewhere eq_refl).
    reflexivity.
  - rewrite (table_origin_as_html_raises Sample.joined eq_refl). reflexivity.
Defined.

Lemma null_file_origins_render_witness :
  (exists text, table_origin_as_str MoreSamples.derived_unknown = Return text)
  /\ (exists markup,
        table_origin_as_html MoreSamples.derived_unknown = Return markup).
Proof.
  apply (null_file_origins_render (P := Sample.machine)
           MoreSamples.derived_unknown eq_refl).
  repeat constructor.
Defined.

Example derived_unknown_as_str :
  table_origin_as_str MoreSamples.derived_unknown
  = Return ("Derived via concat from:" +:+ nl
            +:+ "  Unknown-MFRGGZDFMZTWQ2LK Sheet 'tab' Row 4" +:+ nl
            +:+ "  Unknown-MFRGGZDFMZTWQ2LK Sheet 'tab' Row 4").
Proof. vm_compute. reflexivity. Qed.

(** ** Recording issues *)

Section Recording.
Context `{P : Platform}.

(** X15.  For the base-class [is_ok]: when the issues of a tracker are
    those it had before followed by one more, [is_ok] is what it was
    before, and false if the new issue has a severity of [ERROR] or more.
    So a warning leaves [is_ok] as it was, and [is_ok], once false, stays
    false. *)
Theorem is_ok_after_recording {T} (issues_of : T -> list InputIssue)
    (before after : T) (m : InputIssue)
    (Hrecorded : issues_of after = issues_of before ++ [m]) :
  InputIssueTracker_is_ok issues_of after
  = InputIssueTracker_is_ok issues_of before && (severity m <? ERROR)%Z
  /\ (InputIssueTracker_is_ok issues_of before = false ->
      InputIssueTracker_is_ok issues_of after = false)
  /\ (severity m = WARNING ->
      InputIssueTracker_is_ok issues_of after
      = InputIssueTracker_is_ok issues_of before).
Proof.
  assert (Hstep : InputIssueTracker_is_ok issues_of after
                  = InputIssueTracker_is_ok issues_of before
                    && (severity m <? ERROR)%Z).
  { unfold InputIssueTracker_is_ok. rewrite Hrecorded, existsb_app. simpl.
    rewrite orb_false_r, negb_orb, Z.ltb_antisym. reflexivity. }
  split; [exact Hstep|]. split.
  - intros Hbad. rewrite Hstep, Hbad. reflexivity.
  - intros Hwarn. rewrite Hstep, Hwarn. apply andb_true_r.
Qed.

End Recording.

Lemma is_ok_after_recording_witness :
  InputIssueTracker_is_ok (P := Sample.machine) id
    [mkInputIssue (IssueStr "extra column") None None None WARNING;
     mkInputIssue (IssueStr "missing unit") None None None ERROR]
  = InputIssueTracker_is_ok (P := Sample.machine) id
      [mkInputIssue (IssueStr "extra column") None None None WARNING]
    && (ERROR <? ERROR)%Z.
Proof.
  apply (proj1
           (is_ok_after_recording (P := Sample.machine) id
              [mkInputIssue (IssueStr "extra column") None None None WARNING]
              [mkInputIssue (IssueStr "extra column") None None None WARNING;
               mkInputIssue (IssueStr "missing unit") None None None ERROR]
              (mkInputIssue (IssueStr "missing unit") None None None ERROR)
              eq_refl)).
Defined.

(** ** [normalized_table_generator] *)

Section UtilsProperties.
Context {BlockType Token UnitPolicy : Type} `{EqDecision BlockType}.
Variable TABLE : BlockType.
Variable normalize_table_in_place : UnitPolicy -> Token -> result Token.

Lemma normalized_items_cons (unit_policy : UnitPolicy)
    (item item' : BlockType * option Token) rest ending :
  normalized_item TABLE normalize_table_in_place unit_policy item
  = Return item' ->
  normalized_items TABLE normalize_table_in_place unit_policy (item :: rest) ending
  = mkTrace
      (item' :: yielded (normalized_items TABLE normalize_table_in_place
                           unit_policy rest ending))
      (raised (normalized_items TABLE normalize_table_in_place
                 unit_policy rest ending)).
Proof. intros Hitem. simpl. rewrite Hitem. reflexivity. Qed.

Lemma normalized_items_all (unit_policy : UnitPolicy)
    (items items' : list (BlockType * option Token)) (ending : option exn) :
  result_map (normalized_item TABLE normalize_table_in_place unit_policy) items
  = Return items' ->
  normalized_items TABLE normalize_table_in_place unit_policy items ending
  = mkTrace items' ending.
Proof.
  revert items'. induction items as [|item items IH]; intros items' Hall.
  - injection Hall as <-. reflexivity.
  - simpl in Hall.
    destruct (normalized_item TABLE normalize_table_in_place unit_policy item)
      as [e|item1] eqn:Hitem; [discriminate|].
    destruct (result_map
                (normalized_item TABLE normalize_table_in_place unit_policy) items)
      as [e|rest'] eqn:Hrest; [discriminate|].
    injection Hall as <-.
    rewrite (normalized_items_cons unit_policy item item1 items ending Hitem).
    rewrite (IH rest' eq_refl). reflexivity.
Qed.

Lemma normalized_items_stop (unit_policy : UnitPolicy)
    (before after items' : list (BlockType * option Token))
    (item : BlockType * option Token) (ending : option exn) (e : exn) :
  result_map (normalized_item TABLE normalize_table_in_place unit_policy) before
  = Return items' ->
  normalized_item TABLE normalize_table_in_place unit_policy item = Raise e ->
  normalized_items TABLE normalize_table_in_place unit_policy
    (before ++ item :: after) ending
  = mkTrace items' (Some e).
Proof.
  revert items'. induction before as [|x before IH]; intros items' Hbefore Hitem.
  - injection Hbefore as <-. simpl. rewrite Hitem. reflexivity.
  - simpl in Hbefore.
    destruct (normalized_item TABLE normalize_table_in_place unit_policy x)
      as [e0|x1] eqn:Hx; [discriminate|].
    destruct (result_map
                (normalized_item TABLE normalize_table_in_place unit_policy) before)
      as [e0|rest'] eqn:Hrest; [discriminate|].
    injection Hbefore as <-.
    change ((x :: before) ++ item :: after) with (x :: (before ++ item :: after)).
    rewrite (normalized_items_cons unit_policy x x1 _ ending Hx).
    rewrite (IH rest' eq_refl Hitem). reflexivity.
Qed.

(** X16.  [normalized_table_generator] handles its items one by one, in
    order.  An item that is not a table, or has no token, is yielded as it
    came; a table with a token is normalised and yielded as the
    normalisation left it.  If every normalisation returns, the generator
    yields all the items so handled and ends as its input ended.  If the
    normalisation of a table raises, the generator has yielded exactly
    the items before it and ends with that exception. *)
Theorem normalized_table_generator_items (unit_policy : UnitPolicy) :
  (forall item : BlockType * option Token,
      item.1 <> TABLE \/ item.2 = None ->
      normalized_item TABLE normalize_table_in_place unit_policy item
      = Return item)
  /\ (forall token : Token,
        normalized_item TABLE normalize_table_in_place unit_policy
          (TABLE, Some token)
        = let* token' := normalize_table_in_place unit_policy token in
          Return (TABLE, Some token'))
  /\ (forall ts items',
        result_map (normalized_item TABLE normalize_table_in_place unit_policy)
          (yielded ts) = Return items' ->
        normalized_table_generator TABLE normalize_table_in_place unit_policy ts
        = mkTrace items' (raised ts))
  /\ (forall ts before item after items' e,
        yielded ts = before ++ item :: after ->
        result_map (normalized_item TABLE normalize_table_in_place unit_policy)
          before = Return items' ->
        normalized_item TABLE normalize_table_in_place unit_policy item
        = Raise e ->
        normalized_table_generator TABLE normalize_table_in_place unit_policy ts
        = mkTrace items' (Some e)).
Proof.
  split; [|split; [|split]].
  - intros [ty [token|]] Hplain; unfold normalized_item; simpl in *.
    + destruct Hplain as [Hne | Hnone]; [|discriminate].
      rewrite bool_decide_eq_false_2 by exact Hne. reflexivity.
    + reflexivity.
  - intros token. unfold normalized_item. simpl.
    rewrite bool_decide_eq_true_2 by reflexivity. reflexivity.
  - intros ts items' Hall. unfold normalized_table_generator.
    apply normalized_items_all. exact Hall.
  - intros ts before item after items' e Hts Hbefore Hitem.
    unfold normalized_table_generator. rewrite Hts.
    apply normalized_items_stop; assumption.
Qed.

End UtilsProperties.

(** Block types as strings and tables as numbers; normalising doubles a
    table and fails on 0.  The third item stops the generator. *)
Example normalized_table_generator_stops :
  normalized_table_generator "TABLE"
    (fun (_ : unit) (t : nat) =>
       match t with
       | O => Raise (ValueError "no unit")
       | S _ => Return (2 * t)
       end)
    ()
    (mkTrace [("TABLE", Some 3); ("BLANK", None); ("METADATA", Some 5);
              ("TABLE", Some 0); ("TABLE", Some 4)] None)
  = mkTrace [("TABLE", Some 6); ("BLANK", None); ("METADATA", Some 5)]
            (Some (ValueError "no unit")).
Proof. vm_compute. reflexivity. Qed.

(** ** More on valid trees *)

Section ValidTrees.
Context `{P : Platform}.

Lemma valid_ancestors_bounds (tt : TableOrigin) :
  valid tt = true ->
  1 <= length (yielded (get_input_ancestors tt)) <= node_count tt.
Proof.
  induction tt as [il ps op IH] using TableOrigin_ind. intros Hv.
  destruct op as [op|].
  - pose proof Hv as Hshape.
    apply valid_branch_shape in Hshape as (-> & Hne & Hps).
    rewrite (valid_branch_ancestors ps op Hv).
    assert (Hall : Forall (fun p => 1 <= length (yielded (get_input_ancestors p))
                                     <= node_count p) ps).
    { rewrite Forall_forall in *. intros p Hp. apply IH; [exact Hp|].
      apply Hps. exact Hp. }
    clear IH Hps Hv. simpl.
    destruct ps as [|p ps]; [contradiction|]. clear Hne.
    apply Forall_cons in Hall as [Hp Hall]. simpl. rewrite length_app.
    assert (Hrest : length (concat (map (fun p => yielded (get_input_ancestors p)) ps))
                    <= list_sum (map node_count ps)).
    { induction Hall as [|q qs Hq _ IHqs]; simpl; [lia|].
      rewrite length_app. lia. }
    lia.
  - apply valid_leaf_shape in Hv as (-> & loc & ->). simpl. lia.
Qed.

(** X17.  A valid tree has at least one input ancestor, and no more input
    ancestors than it has nodes. *)
Theorem valid_tree_has_input_ancestor (tt : TableOrigin) (Hv : valid tt = true) :
  1 <= length (yielded (get_input_ancestors tt)) <= node_count tt.
Proof. apply valid_ancestors_bounds. exact Hv. Qed.

(** X18.  A valid tree renders to text without an exception when each of
    its input ancestors is over a null file or over a filesystem file
    without a root folder. *)
Theorem table_origin_as_str_without_root_folder (tt : TableOrigin)
    (Hv : valid tt = true)
    (Hplain : Forall (fun loc => shown_as_is loc = true)
                (yielded (get_input_ancestors tt))) :
  exists text, table_origin_as_str tt = Return text.
Proof.
  apply raised_by_none. unfold table_origin_as_str.
  rewrite raised_by_bind_return, (visit_str_raised tt Hv).
  apply first_raised_all_none, Forall_map.
  eapply Forall_impl; [exact Hplain|]. intros loc Hloc.
  unfold shown_as_is in Hloc.
  unfold LocationBlock_interactive_identifier,
    LocationFile_get_interactive_identifier,
    FilesystemLocationFile_get_interactive_identifier,
    FilesystemLocationFile_interactive_identifier.
  destruct (LocationBlock_file loc) as [nf|f]; [reflexivity|].
  destruct (root_folder f); [discriminate | reflexivity].
Qed.

End ValidTrees.

Lemma valid_tree_has_input_ancestor_witness :
  1 <= length [Sample.block_A; Sample.block_B; Sample.block_A] <= 5.
Proof.
  apply (valid_tree_has_input_ancestor (P := Sample.machine) Sample.joined eq_refl).
Defined.

Lemma table_origin_as_str_without_root_folder_witness :
  exists text, table_origin_as_str Sample.joined = Return text.
Proof.
  apply (table_origin_as_str_without_root_folder (P := Sample.machine)
           Sample.joined eq_refl).
  repeat constructor.
Defined.
